(** * epoll-cpp: a shallow embedding of the [Epoll] reactor

    The development follows [src/Epoll.h] and [src/Epoll.cpp]:

    - [MonitoredDescriptor] is the per-descriptor record with its six
      handler slots ([std::function<void(int)>], possibly empty);
    - [Epoll] is the reactor object; its registry
      [std::unordered_map<int, MonitoredDescriptor>] is a [gmap Z _];
    - the host kernel is an interface ([Kernel]): every system call the
      reactor issues goes through it and is appended to a trace, so that
      statements such as "no kernel call is performed" or "the next
      subscription is an add" can be written down;
    - C++ exceptions are the [Threw] branch of [outcome]; the state that
      is left behind by a throwing call is kept, since the caller can
      observe it after catching. *)

From stdpp Require Import gmap list strings pretty.

Open Scope Z_scope.

(** ** Constants of the host interface *)

(** Modelled from the spec: the six event categories are "a fixed, named,
    bit-flag enumeration matching the host kernel facility's readiness
    bits"; [<sys/epoll.h>] and [<fcntl.h>] are system headers, the values
    below are the ones of Linux. *)
Definition EPOLLIN : Z := 1.
Definition EPOLLPRI : Z := 2.
Definition EPOLLOUT : Z := 4.
Definition EPOLLERR : Z := 8.
Definition EPOLLHUP : Z := 16.
Definition EPOLLRDHUP : Z := 8192.
Definition EPOLLET : Z := 2147483648.
Definition O_NONBLOCK : Z := 2048.

(** [Epoll.h], line 8. *)
Definition allEventTypes : list Z :=
  [EPOLLIN; EPOLLOUT; EPOLLRDHUP; EPOLLPRI; EPOLLERR; EPOLLHUP].

(** ** Exceptions, kernel calls, traces *)

Inductive exn :=
| runtime_error (what : string)
| out_of_range
| bad_function_call.

Inductive ctl_op := EPOLL_CTL_ADD | EPOLL_CTL_DEL | EPOLL_CTL_MOD.

Record epoll_event := { events : Z; data_fd : Z }.

(** What an observer of the process sees: the system calls with their
    arguments and return value, and the handler invocations made by the
    dispatch loop. *)
Inductive event :=
| SysEpollCreate (flags ret : Z)
| SysEpollCtl (epfd : Z) (op : ctl_op) (fd : Z) (ev : epoll_event) (ret : Z)
| SysEpollWait (epfd maxevents timeout ret : Z)
| SysGetFl (fd ret : Z)
| SysSetFl (fd flags ret : Z)
| Invoke (fd evt : Z).

(** The host kernel: a state and one transition per system call. *)
Class Kernel (K : Type) := {
  epoll_create1 : Z → K → K * Z;
  epoll_ctl : Z → ctl_op → Z → epoll_event → K → K * Z;
  epoll_wait : Z → Z → Z → K → K * (Z * list epoll_event);
  fcntl_getfl : Z → K → K * Z;
  fcntl_setfl : Z → Z → K → K * Z
}.

Inductive outcome (W A : Type) :=
| Done (a : A) (w : W)
| Threw (e : exn) (w : W).
Arguments Done {W A} a w.
Arguments Threw {W A} e w.

(** The state a call leaves behind, whether it returned or threw. *)
Definition after {W A} (o : outcome W A) : W :=
  match o with Done _ w => w | Threw _ w => w end.

Definition returned {W A} (o : outcome W A) : bool :=
  match o with Done _ _ => true | Threw _ _ => false end.

(** ** MonitoredDescriptor *)

Section Descriptor.
Context {Callback : Type}.

(** A [std::function<void(int)>]: [None] is the empty function
    ([nullptr]). *)
Definition handler : Type := option Callback.

Record MonitoredDescriptor := {
  isInitialized : bool;
  monitoredFd : Z;
  IN_handler : handler;
  OUT_handler : handler;
  RDHUP_handler : handler;
  PRI_handler : handler;
  ERR_handler : handler;
  HUP_handler : handler
}.

(** [MonitoredDescriptor::MonitoredDescriptor(int)]. *)
Definition newDescriptor (fd : Z) : MonitoredDescriptor :=
  {| isInitialized := false; monitoredFd := fd;
     IN_handler := None; OUT_handler := None; RDHUP_handler := None;
     PRI_handler := None; ERR_handler := None; HUP_handler := None |}.

(** [h != nullptr]. *)
Definition nonnull (h : handler) : bool :=
  match h with Some _ => true | None => false end.

Definition hasHandler (md : MonitoredDescriptor) (eventType : Z) : bool :=
  if eventType =? EPOLLIN then nonnull (IN_handler md)
  else if eventType =? EPOLLOUT then nonnull (OUT_handler md)
  else if eventType =? EPOLLRDHUP then nonnull (RDHUP_handler md)
  else if eventType =? EPOLLPRI then nonnull (PRI_handler md)
  else if eventType =? EPOLLERR then nonnull (ERR_handler md)
  else if eventType =? EPOLLHUP then nonnull (HUP_handler md)
  else false.

Definition setHandler (md : MonitoredDescriptor) (eventType : Z) (h : handler)
  : MonitoredDescriptor :=
  let '{| isInitialized := i; monitoredFd := fd; IN_handler := hin;
          OUT_handler := hout; RDHUP_handler := hrd; PRI_handler := hpri;
          ERR_handler := herr; HUP_handler := hhup |} := md in
  if eventType =? EPOLLIN then
    Build_MonitoredDescriptor i fd h hout hrd hpri herr hhup
  else if eventType =? EPOLLOUT then
    Build_MonitoredDescriptor i fd hin h hrd hpri herr hhup
  else if eventType =? EPOLLRDHUP then
    Build_MonitoredDescriptor i fd hin hout h hpri herr hhup
  else if eventType =? EPOLLPRI then
    Build_MonitoredDescriptor i fd hin hout hrd h herr hhup
  else if eventType =? EPOLLERR then
    Build_MonitoredDescriptor i fd hin hout hrd hpri h hhup
  else if eventType =? EPOLLHUP then
    Build_MonitoredDescriptor i fd hin hout hrd hpri herr h
  else md.

Definition getHandler (md : MonitoredDescriptor) (eventType : Z) : exn + handler :=
  if eventType =? EPOLLIN then inr (IN_handler md)
  else if eventType =? EPOLLOUT then inr (OUT_handler md)
  else if eventType =? EPOLLRDHUP then inr (RDHUP_handler md)
  else if eventType =? EPOLLPRI then inr (PRI_handler md)
  else if eventType =? EPOLLERR then inr (ERR_handler md)
  else if eventType =? EPOLLHUP then inr (HUP_handler md)
  else inl (runtime_error
    "Epoll::MonitoredDescriptor::getHandler: ERROR - passed eventType is invalid.").

Definition setInitialized (md : MonitoredDescriptor) (b : bool) : MonitoredDescriptor :=
  {| isInitialized := b; monitoredFd := monitoredFd md;
     IN_handler := IN_handler md; OUT_handler := OUT_handler md;
     RDHUP_handler := RDHUP_handler md; PRI_handler := PRI_handler md;
     ERR_handler := ERR_handler md; HUP_handler := HUP_handler md |}.

(** The six slots, in the order of [allEventTypes]. *)
Definition slots (md : MonitoredDescriptor) : list handler :=
  [IN_handler md; OUT_handler md; RDHUP_handler md;
   PRI_handler md; ERR_handler md; HUP_handler md].
End Descriptor.
Arguments MonitoredDescriptor Callback : clear implicits.
Arguments handler Callback : clear implicits.

(** ** The reactor *)

Section Reactor.
Context {Callback K : Type} `{!Kernel K}.

Record Epoll := {
  _monitoredFds : gmap Z (MonitoredDescriptor Callback);
  _epollFd : Z;
  _isEdgeTriggered : bool
}.

Definition _maxEventsNum : Z := 10.

(** The reactor object together with the kernel it talks to and the
    trace of what happened so far. *)
Record World := {
  reactor : Epoll;
  kernel : K;
  trace : list event
}.

Definition registry (w : World) : gmap Z (MonitoredDescriptor Callback) :=
  _monitoredFds (reactor w).

Definition setRegistry (m : gmap Z (MonitoredDescriptor Callback)) (w : World) : World :=
  {| reactor := {| _monitoredFds := m; _epollFd := _epollFd (reactor w);
                   _isEdgeTriggered := _isEdgeTriggered (reactor w) |};
     kernel := kernel w; trace := trace w |}.

(** A system call was made: the kernel moved to [k], [e] is appended
    to the trace. *)
Definition syscall (k : K) (e : event) (w : World) : World :=
  {| reactor := reactor w; kernel := k; trace := trace w ++ [e] |}.

Definition logInvoke (fd evt : Z) (w : World) : World :=
  {| reactor := reactor w; kernel := kernel w; trace := trace w ++ [Invoke fd evt] |}.

Definition M (A : Type) : Type := World → outcome World A.

(** What running a callback with argument [fd] does to the world. *)
Definition Callbacks : Type := Callback → Z → M unit.

(** [Epoll::Epoll(bool)]. *)
Definition construct (isEdgeTriggered : bool) (k : K) : outcome World unit :=
  let '(k', fd) := epoll_create1 0 k in
  let w := {| reactor := {| _monitoredFds := ∅; _epollFd := fd;
                            _isEdgeTriggered := isEdgeTriggered |};
              kernel := k'; trace := [SysEpollCreate 0 fd] |} in
  if fd =? -1 then
    Threw (runtime_error "Epoll::Epoll: ERROR - Failed to create epoll file descriptor.") w
  else Done tt w.

Definition _epollCtlAdd (fd evs : Z) : M unit := λ w,
  let ev := {| events := evs; data_fd := fd |} in
  let '(k', r) := epoll_ctl (_epollFd (reactor w)) EPOLL_CTL_ADD fd ev (kernel w) in
  let w' := syscall k' (SysEpollCtl (_epollFd (reactor w)) EPOLL_CTL_ADD fd ev r) w in
  if r =? -1 then
    Threw (runtime_error "Epoll::_epollCtlAdd: ERROR - Failed adding event to descriptor.") w'
  else Done tt w'.

Definition _epollCtlModify (fd evs : Z) : M unit := λ w,
  let ev := {| events := evs; data_fd := fd |} in
  let '(k', r) := epoll_ctl (_epollFd (reactor w)) EPOLL_CTL_MOD fd ev (kernel w) in
  let w' := syscall k' (SysEpollCtl (_epollFd (reactor w)) EPOLL_CTL_MOD fd ev r) w in
  if r =? -1 then
    Threw (runtime_error "Epoll::_epollCtlModify: ERROR - Failed modifying file descriptor events.") w'
  else Done tt w'.

Definition _setNonBlocking (fd : Z) : M unit := λ w,
  let '(k1, fl) := fcntl_getfl fd (kernel w) in
  let w1 := syscall k1 (SysGetFl fd fl) w in
  let '(k2, r) := fcntl_setfl fd (Z.lor fl O_NONBLOCK) k1 in
  let w2 := syscall k2 (SysSetFl fd (Z.lor fl O_NONBLOCK) r) w1 in
  if r =? -1 then
    Threw (runtime_error "Epoll::_setNonBlocking: ERROR - Failed to set descriptor into non-blocking mode.") w2
  else Done tt w2.

(** The return value of [epoll_ctl] is dropped. *)
Definition _epollCtlDelete (fd : Z) : M unit := λ w,
  let ev := {| events := 0; data_fd := fd |} in
  let '(k', r) := epoll_ctl (_epollFd (reactor w)) EPOLL_CTL_DEL fd ev (kernel w) in
  Done tt (syscall k' (SysEpollCtl (_epollFd (reactor w)) EPOLL_CTL_DEL fd ev r) w).

(** [_monitoredFds.try_emplace(fd, fd)], then the non-blocking switch. *)
Definition addDescriptor (fd : Z) : M unit := λ w,
  let w1 := match registry w !! fd with
            | Some _ => w
            | None => setRegistry (<[fd := newDescriptor fd]> (registry w)) w
            end in
  if _isEdgeTriggered (reactor w1) then _setNonBlocking fd w1 else Done tt w1.

Definition removeDescriptor (monitoredFd : Z) : M unit := λ w,
  match registry w !! monitoredFd with
  | Some _ =>
      match _epollCtlDelete monitoredFd w with
      | Done _ w1 => Done tt (setRegistry (delete monitoredFd (registry w1)) w1)
      | Threw e w1 => Threw e w1
      end
  | None => Done tt w
  end.

(** The first loop of [_reloadEventHandlers] with its [firstEvt] flag,
    then the edge-trigger flag. *)
Definition reloadStep (md : MonitoredDescriptor Callback) (acc : Z * bool) (evt : Z)
  : Z * bool :=
  let '(resultingEvents, firstEvt) := acc in
  if hasHandler md evt then
    if firstEvt then (evt, false) else (Z.lor resultingEvents evt, firstEvt)
  else acc.

Definition resultingEvents (isEdgeTriggered : bool) (md : MonitoredDescriptor Callback) : Z :=
  let '(res, firstEvt) := fold_left (reloadStep md) allEventTypes (0, true) in
  if isEdgeTriggered then
    if firstEvt then EPOLLET else Z.lor res EPOLLET
  else res.

(** [md] is a reference to the registry entry stored under key [slot];
    writing [md.isInitialized] writes that entry. *)
Definition _reloadEventHandlers (slot : Z) (md : MonitoredDescriptor Callback) : M unit := λ w,
  let evs := resultingEvents (_isEdgeTriggered (reactor w)) md in
  if isInitialized md then
    _epollCtlModify (monitoredFd md) evs w
  else
    match _epollCtlAdd (monitoredFd md) evs w with
    | Done _ w1 => Done tt (setRegistry (<[slot := setInitialized md true]> (registry w1)) w1)
    | Threw e w1 => Threw e w1
    end.

(** The loop of [addEventHandler]. *)
Definition installHandlers (eventType : Z) (eventHandler : handler Callback)
    (md : MonitoredDescriptor Callback) : MonitoredDescriptor Callback :=
  fold_left (λ md evt,
    if Z.land eventType evt =? 0 then md else setHandler md evt eventHandler)
    allEventTypes md.

Definition addEventHandler (monitoredFd : Z) (eventType : Z)
    (eventHandler : handler Callback) : M unit := λ w,
  match registry w !! monitoredFd with
  | None =>
      Threw (runtime_error "Epoll::addEventHandler: ERROR - file descriptor must first be added to Epoll before adding event handler.") w
  | Some md =>
      let md' := installHandlers eventType eventHandler md in
      _reloadEventHandlers monitoredFd md'
        (setRegistry (<[monitoredFd := md']> (registry w)) w)
  end.

(** The loop of [removeEventHandler]. *)
Definition clearHandlers (eventType : Z) (md : MonitoredDescriptor Callback)
  : MonitoredDescriptor Callback :=
  fold_left (λ md evt,
    if hasHandler md (Z.land eventType evt)
    then setHandler md (Z.land eventType evt) None else md)
    allEventTypes md.

(** [_monitoredFds.at(fd)] throws [std::out_of_range] on a missing key. *)
Definition removeEventHandler (monitoredFd : Z) (eventType : Z) : M unit := λ w,
  match registry w !! monitoredFd with
  | None => Threw out_of_range w
  | Some md =>
      let md' := clearHandlers eventType md in
      _reloadEventHandlers monitoredFd md'
        (setRegistry (<[monitoredFd := md']> (registry w)) w)
  end.

(** How a loop body ends: it falls through to the next iteration, or
    it executes [return]. *)
Inductive flow := Continue | Return.

Section Dispatch.
Variable invoke : Callbacks.

(** The inner loop of [waitForEvents], lines 46-56, over the
    remaining categories [evts]. *)
Fixpoint dispatchCategories (fd evs : Z) (evts : list Z) (w : World)
  : outcome World flow :=
  match evts with
  | [] => Done Continue w
  | evt :: rest =>
      match registry w !! fd with
      | None => Done Return w
      | Some md =>
          if hasHandler md (Z.land evs evt) then
            match getHandler md (Z.land evs evt) with
            | inl e => Threw e w
            | inr None => Threw bad_function_call w
            | inr (Some cb) =>
                match invoke cb fd (logInvoke fd (Z.land evs evt) w) with
                | Done _ w1 => dispatchCategories fd evs rest w1
                | Threw e w1 => Threw e w1
                end
            end
          else dispatchCategories fd evs rest w
      end
  end.

(** One iteration of the outer loop, lines 42-61. *)
Definition dispatchOne (ev : epoll_event) (w : World) : outcome World flow :=
  match dispatchCategories (data_fd ev) (events ev) allEventTypes w with
  | Done Continue w1 =>
      if Z.land (events ev) (Z.lor EPOLLRDHUP EPOLLHUP) =? 0 then Done Continue w1
      else match removeDescriptor (data_fd ev) w1 with
           | Done _ w2 => Done Continue w2
           | Threw e w2 => Threw e w2
           end
  | Done Return w1 => Done Return w1
  | Threw e w1 => Threw e w1
  end.

(** The outer loop, lines 41-62, over the reported pairs. *)
Fixpoint dispatchEvents (reported : list epoll_event) (w : World)
  : outcome World flow :=
  match reported with
  | [] => Done Continue w
  | ev :: rest =>
      match dispatchOne ev w with
      | Done Continue w1 => dispatchEvents rest w1
      | Done Return w1 => Done Return w1
      | Threw e w1 => Threw e w1
      end
  end.

(** [epoll_wait] fills the buffer and returns how many entries are
    valid; a negative count makes the loop run zero times. *)
Definition waitForEvents (timeout : Z) : M unit := λ w,
  let '(k', (numOfEvents, buf)) :=
    epoll_wait (_epollFd (reactor w)) _maxEventsNum timeout (kernel w) in
  let w0 := syscall k' (SysEpollWait (_epollFd (reactor w)) _maxEventsNum timeout numOfEvents) w in
  match dispatchEvents (take (Z.to_nat numOfEvents) buf) w0 with
  | Done _ w1 => Done tt w1
  | Threw e w1 => Threw e w1
  end.
End Dispatch.
End Reactor.
Arguments Epoll Callback : clear implicits.
Arguments World Callback K : clear implicits.
Arguments M Callback K : clear implicits.
Arguments Callbacks Callback K : clear implicits.

(** ** A scripted kernel and a few callbacks, for concrete runs *)

Module Demo.
(** A small kernel: an interest list per epoll instance (a single
    instance is enough here), descriptors that are already closed (any
    call on them fails with [EBADF]), and the batches that successive
    [epoll_wait] calls are going to report. *)
Record TestKernel := {
  interest : gmap Z Z;
  closed : list Z;
  pending : list (list epoll_event)
}.

Definition isClosed (fd : Z) (k : TestKernel) : bool := existsb (Z.eqb fd) (closed k).

Definition setInterest (m : gmap Z Z) (k : TestKernel) : TestKernel :=
  {| interest := m; closed := closed k; pending := pending k |}.

Definition test_epoll_ctl (epfd : Z) (op : ctl_op) (fd : Z) (ev : epoll_event)
    (k : TestKernel) : TestKernel * Z :=
  if isClosed fd k then (k, -1)
  else match op, interest k !! fd with
       | EPOLL_CTL_ADD, None => (setInterest (<[fd := events ev]> (interest k)) k, 0)
       | EPOLL_CTL_ADD, Some _ => (k, -1)
       | EPOLL_CTL_MOD, Some _ => (setInterest (<[fd := events ev]> (interest k)) k, 0)
       | EPOLL_CTL_MOD, None => (k, -1)
       | EPOLL_CTL_DEL, Some _ => (setInterest (delete fd (interest k)) k, 0)
       | EPOLL_CTL_DEL, None => (k, -1)
       end.

Definition test_epoll_wait (epfd maxevents timeout : Z) (k : TestKernel)
  : TestKernel * (Z * list epoll_event) :=
  match pending k with
  | [] => (k, (0, []))
  | batch :: rest =>
      let buf := take (Z.to_nat maxevents) batch in
      ({| interest := interest k; closed := closed k; pending := rest |},
       (Z.of_nat (length buf), buf))
  end.

#[export] Instance testKernel : Kernel TestKernel := {|
  epoll_create1 := λ _ k, (k, 3);
  epoll_ctl := test_epoll_ctl;
  epoll_wait := test_epoll_wait;
  fcntl_getfl := λ fd k, (k, if isClosed fd k then -1 else 2);
  fcntl_setfl := λ fd _ k, (k, if isClosed fd k then -1 else 0)
  |}.

(** Callbacks: [record] only runs (the dispatch loop logs the
    invocation); [removeSelf] calls [removeDescriptor] on its argument,
    as the comment in [onClientDisconnect] of [main.cpp] suggests. *)
Inductive callback := record | removeSelf.

Definition run : Callbacks callback TestKernel := λ cb fd,
  match cb with
  | record => Done tt
  | removeSelf => removeDescriptor fd
  end.

(** Callbacks that do nothing but return. *)
Definition quiet : Callbacks callback TestKernel := λ _ _, Done tt.

Definition boot (edge : bool) (closedFds : list Z) (batches : list (list epoll_event))
  : World callback TestKernel :=
  after (construct edge {| interest := ∅; closed := closedFds; pending := batches |}).

(** Run a list of calls one after the other, as a caller that catches
    every exception would. *)
Definition script (calls : list (M callback TestKernel unit))
    (w : World callback TestKernel) : World callback TestKernel :=
  fold_left (λ w call, after (call w)) calls w.

Definition invocations (w : World callback TestKernel) : list (Z * Z) :=
  omap (λ e, match e with Invoke fd evt => Some (fd, evt) | _ => None end) (trace w).

Definition registered (w : World callback TestKernel) : list Z :=
  (map_to_list (registry w)).*1.
(** A descriptor entry with a handler in each of the six slots. *)
Definition full : MonitoredDescriptor callback :=
  {| isInitialized := true; monitoredFd := 7;
     IN_handler := Some record; OUT_handler := Some record;
     RDHUP_handler := Some record; PRI_handler := Some record;
     ERR_handler := Some record; HUP_handler := Some record |}.

(** Level-triggered reactor, descriptor 7 registered, nothing else. *)
Definition bare7 : World callback TestKernel :=
  script [addDescriptor 7] (boot false [] []).

(** The same, but descriptor 7 is already closed: the kernel rejects
    every call on it. *)
Definition closed7 : World callback TestKernel :=
  script [addDescriptor 7] (boot false [7] []).

(** Descriptor 7 with a readable handler, subscribed. *)
Definition reading7 : World callback TestKernel :=
  script [addDescriptor 7; addEventHandler 7 EPOLLIN (Some record)] (boot false [] []).

(** Descriptor 7 has a readable handler only; the kernel reports a
    hang-up for it ([EPOLLHUP] is reported whether subscribed or not). *)
Definition hungup7 : World callback TestKernel :=
  script [addDescriptor 7; addEventHandler 7 EPOLLIN (Some record)]
    (boot false [] [[{| events := EPOLLHUP; data_fd := 7 |}]]).

(** Descriptor 3 has a readable and a hang-up handler; the kernel
    reports both bits in one pair. *)
Definition scenario3 : World callback TestKernel :=
  script [addDescriptor 3; addEventHandler 3 EPOLLIN (Some record);
          addEventHandler 3 EPOLLHUP (Some record)]
    (boot false [] [[{| events := Z.lor EPOLLIN EPOLLHUP; data_fd := 3 |}]]).

(** Edge-triggered reactor. The readable handler of descriptor 3 removes
    descriptor 3, the readable handler of descriptor 4 only records; the
    kernel reports both descriptors readable in one batch. *)
Definition pair34 : World callback TestKernel :=
  script [addDescriptor 3; addEventHandler 3 EPOLLIN (Some removeSelf);
          addDescriptor 4; addEventHandler 4 EPOLLIN (Some record)]
    (boot true [] [[{| events := EPOLLIN; data_fd := 3 |};
                    {| events := EPOLLIN; data_fd := 4 |}]]).

(** Level-triggered reactor. Descriptor 3 has a readable and a hang-up
    handler, the readable handler of descriptor 4 removes descriptor 4,
    descriptor 6 has a readable handler; the kernel reports a hang-up of
    3 and then 4 and 6 readable, so the cycle is cut at descriptor 4. *)
Definition cut346 : World callback TestKernel :=
  script [addDescriptor 3; addEventHandler 3 (Z.lor EPOLLIN EPOLLHUP) (Some record);
          addDescriptor 4; addEventHandler 4 EPOLLIN (Some removeSelf);
          addDescriptor 6; addEventHandler 6 EPOLLIN (Some record)]
    (boot false [] [[{| events := Z.lor EPOLLIN EPOLLHUP; data_fd := 3 |};
                     {| events := EPOLLIN; data_fd := 4 |};
                     {| events := EPOLLIN; data_fd := 6 |}]]).
End Demo.

(** ** Vocabulary of the statements *)

(** The test [eventType & evt] of the loops, as a boolean. *)
Definition selects (eventType evt : Z) : bool := negb (Z.land eventType evt =? 0).

(** The subscription mask in the words of the specification: the union
    of the categories that currently hold a non-empty handler, with the
    edge-trigger flag added when the reactor is edge-triggered. *)
Definition spec_subscriptionMask {Callback} (edgeTriggered : bool)
  (md : MonitoredDescriptor Callback) : Z :=
  let union := foldr Z.lor 0 (filter (λ evt, hasHandler md evt) allEventTypes) in
  if edgeTriggered then Z.lor union EPOLLET else union.

(** How often a descriptor occurs as a key of the registry snapshot
    returned by [getMonitoredFds]. *)
Definition occurrences {Callback} (fd : Z) (m : gmap Z (MonitoredDescriptor Callback)) : nat :=
  length (filter (λ p, p.1 = fd) (map_to_list m)).

(** [n] calls of [addDescriptor(fd)] in a row, by a caller that catches. *)
Fixpoint repeatAddDescriptor {Callback K} `{!Kernel K} (n : nat) (fd : Z)
  (w : World Callback K) : World Callback K :=
  match n with
  | O => w
  | S n => repeatAddDescriptor n fd (after (addDescriptor fd w))
  end.

(** The reported bits include a hang-up or a peer-half-closed bit. *)
Definition hangupReported (evs : Z) : bool :=
  negb (Z.land evs (Z.lor EPOLLRDHUP EPOLLHUP) =? 0).

(** A callback is registered for a hang-up category. *)
Definition hasHangupHandler {Callback} (md : MonitoredDescriptor Callback) : bool :=
  hasHandler md EPOLLRDHUP || hasHandler md EPOLLHUP.

(** The kernel call [_reloadEventHandlers] makes for [md] in world [w]:
    which call it is, and what the kernel answers. *)
Definition subscriptionOp {Callback} (md : MonitoredDescriptor Callback) : ctl_op :=
  if isInitialized md then EPOLL_CTL_MOD else EPOLL_CTL_ADD.

Definition subscriptionArg {Callback K} (w : World Callback K)
  (md : MonitoredDescriptor Callback) : epoll_event :=
  {| events := resultingEvents (_isEdgeTriggered (reactor w)) md;
     data_fd := monitoredFd md |}.

Definition subscriptionCall {Callback K} `{!Kernel K} (w : World Callback K)
  (md : MonitoredDescriptor Callback) : K * Z :=
  epoll_ctl (_epollFd (reactor w)) (subscriptionOp md) (monitoredFd md)
    (subscriptionArg w md) (kernel w).

Definition subscriptionEvent {Callback K} (w : World Callback K)
  (md : MonitoredDescriptor Callback) (ret : Z) : event :=
  SysEpollCtl (_epollFd (reactor w)) (subscriptionOp md) (monitoredFd md)
    (subscriptionArg w md) ret.

(** What [epoll_wait] reports in world [w], that is the valid prefix of
    the buffer, and the world in which the dispatch loop then starts. *)
Definition reportedBatch {Callback K} `{!Kernel K} (timeout : Z)
  (w : World Callback K) : list epoll_event :=
  let '(_, (numOfEvents, buf)) :=
    epoll_wait (_epollFd (reactor w)) _maxEventsNum timeout (kernel w) in
  take (Z.to_nat numOfEvents) buf.

Definition enterWait {Callback K} `{!Kernel K} (timeout : Z)
  (w : World Callback K) : World Callback K :=
  let '(k', (numOfEvents, _)) :=
    epoll_wait (_epollFd (reactor w)) _maxEventsNum timeout (kernel w) in
  syscall k' (SysEpollWait (_epollFd (reactor w)) _maxEventsNum timeout numOfEvents) w.

(** The hang-up clean-up sentence of the specification, for one
    wait-cycle started in [w]: a reported descriptor whose bits include a
    hang-up bit is gone afterwards if a hang-up callback was registered
    for it, and is still there if none was. *)
Definition hangupCleanupClaim {Callback K} `{!Kernel K}
  (invoke : Callbacks Callback K) (timeout : Z) (w : World Callback K) : Prop :=
  ∀ ev md,
    ev ∈ reportedBatch timeout w →
    hangupReported (events ev) = true →
    registry w !! data_fd ev = Some md →
    if hasHangupHandler md
    then registry (after (waitForEvents invoke timeout w)) !! data_fd ev = None
    else is_Some (registry (after (waitForEvents invoke timeout w)) !! data_fd ev).

(** The dispatch loop in the words of the specification: for each
    reported pair the six categories are visited in order; for a category
    present in the bits, dispatch for this descriptor stops if it is no
    longer registered, otherwise the installed handler, if any, is
    invoked; after the categories, a hang-up bit triggers
    [removeDescriptor]; then the next pair is processed. *)
Fixpoint spec_dispatchCategories {Callback K} (invoke : Callbacks Callback K)
  (fd evs : Z) (evts : list Z) (w : World Callback K) : outcome (World Callback K) unit :=
  match evts with
  | [] => Done tt w
  | evt :: rest =>
      if Z.land evs evt =? 0 then spec_dispatchCategories invoke fd evs rest w
      else match registry w !! fd with
           | None => Done tt w
           | Some md =>
               match getHandler md evt with
               | inr (Some cb) =>
                   match invoke cb fd (logInvoke fd evt w) with
                   | Done _ w1 => spec_dispatchCategories invoke fd evs rest w1
                   | Threw e w1 => Threw e w1
                   end
               | _ => spec_dispatchCategories invoke fd evs rest w
               end
           end
  end.

Fixpoint spec_dispatchEvents {Callback K} `{!Kernel K} (invoke : Callbacks Callback K)
  (reported : list epoll_event) (w : World Callback K) : outcome (World Callback K) unit :=
  match reported with
  | [] => Done tt w
  | ev :: rest =>
      match spec_dispatchCategories invoke (data_fd ev) (events ev) allEventTypes w with
      | Done _ w1 =>
          if hangupReported (events ev) then
            match removeDescriptor (data_fd ev) w1 with
            | Done _ w2 => spec_dispatchEvents invoke rest w2
            | Threw e w2 => Threw e w2
            end
          else spec_dispatchEvents invoke rest w1
      | Threw e w1 => Threw e w1
      end
  end.

(** No callback registers descriptor [fd]. *)
Definition neverRegisters {Callback K} (invoke : Callbacks Callback K) (fd : Z) : Prop :=
  ∀ cb arg w, registry w !! fd = None → registry (after (invoke cb arg w)) !! fd = None.

(** ** Vocabulary for sequences of calls and for traces *)

(** A call on the public interface of [Epoll]. *)
Inductive call {Callback : Type} :=
| AddDescriptor (fd : Z)
| RemoveDescriptor (fd : Z)
| AddEventHandler (fd eventType : Z) (eventHandler : handler Callback)
| RemoveEventHandler (fd eventType : Z)
| WaitForEvents (timeout : Z).
Arguments call Callback : clear implicits.

Definition perform {Callback K} `{!Kernel K} (invoke : Callbacks Callback K)
  (c : call Callback) : M Callback K unit :=
  match c with
  | AddDescriptor fd => addDescriptor fd
  | RemoveDescriptor fd => removeDescriptor fd
  | AddEventHandler fd eventType eventHandler => addEventHandler fd eventType eventHandler
  | RemoveEventHandler fd eventType => removeEventHandler fd eventType
  | WaitForEvents timeout => waitForEvents invoke timeout
  end.

(** A caller that makes the calls one after the other and catches what
    they throw. *)
Definition performAll {Callback K} `{!Kernel K} (invoke : Callbacks Callback K)
  (cs : list (call Callback)) (w : World Callback K) : World Callback K :=
  fold_left (λ w c, after (perform invoke c w)) cs w.

(** Reading a trace from the left: is [fd] on the interest list as far
    as the calls tell, that is, was the last [EPOLL_CTL_ADD] for it
    successful and not followed by an [EPOLL_CTL_DEL]. *)
Definition ctlStep (fd : Z) (added : bool) (e : event) : bool :=
  match e with
  | SysEpollCtl _ EPOLL_CTL_ADD fd' _ r =>
      if (fd' =? fd) && negb (r =? -1) then true else added
  | SysEpollCtl _ EPOLL_CTL_DEL fd' _ _ => if fd' =? fd then false else added
  | _ => added
  end.

Definition addedIn (fd : Z) (tr : list event) : bool := fold_left (ctlStep fd) tr false.

(** Every [EPOLL_CTL_ADD] of the trace is for a descriptor that was not
    on the interest list at that point. *)
Definition freshAdds (tr : list event) : Prop :=
  ∀ pre epfd fd ev r post,
    tr = pre ++ SysEpollCtl epfd EPOLL_CTL_ADD fd ev r :: post →
    addedIn fd pre = false.

(** The [isInitialized] flag the registry holds for [fd]; false for an
    unregistered descriptor. *)
Definition flagOf {Callback K} (w : World Callback K) (fd : Z) : bool :=
  match registry w !! fd with
  | Some md => isInitialized md
  | None => false
  end.

(** Every entry is stored under its own descriptor. *)
Definition keysMatch {Callback K} (w : World Callback K) : Prop :=
  ∀ fd md, registry w !! fd = Some md → monitoredFd md = fd.

(** The flags of the registry agree with the kernel calls made so far. *)
Definition flagsMatch {Callback K} (w : World Callback K) : Prop :=
  ∀ fd, flagOf w fd = addedIn fd (trace w).

Definition sound {Callback K} (w : World Callback K) : Prop :=
  keysMatch w ∧ flagsMatch w ∧ freshAdds (trace w).

(** The handler invocations recorded in a trace. *)
Definition invokedIn (tr : list event) : list (Z * Z) :=
  omap (λ e, match e with Invoke fd evt => Some (fd, evt) | _ => None end) tr.

(** Callbacks that return normally and leave the reactor alone: they do
    not change the registry and make no call that is traced. *)
Definition inert {Callback K} (invoke : Callbacks Callback K) : Prop :=
  ∀ cb arg w, ∃ w',
    invoke cb arg w = Done tt w' ∧ registry w' = registry w ∧ trace w' = trace w.

(** The categories that are both reported in [evs] and handled by [md],
    in the order of [allEventTypes]. *)
Definition matching {Callback} (md : MonitoredDescriptor Callback) (evs : Z) : list Z :=
  filter (λ evt, selects evs evt && hasHandler md evt) allEventTypes.

(** The descriptors of a batch that are reported with a hang-up bit. *)
Definition hangupFds (batch : list epoll_event) : list Z :=
  data_fd <$> filter (λ ev, hangupReported (events ev)) batch.

(** The invocations a batch calls for, read off a registry. *)
Definition expectedInvocations {Callback} (reg : gmap Z (MonitoredDescriptor Callback))
  (batch : list epoll_event) : list (Z * Z) :=
  concat ((λ ev, match reg !! data_fd ev with
                 | Some md => (λ evt, (data_fd ev, evt)) <$> matching md (events ev)
                 | None => []
                 end) <$> batch).

(** The six category bits together. *)
Definition allCategories : Z := foldr Z.lor 0 allEventTypes.

(** ** The demo server of [main.cpp] *)

(** The socket calls of [main.cpp]. They act on the kernel only; they
    are not entered in the trace, which records the calls of the reactor.
    Output to [std::cout] is not modelled. *)
Class Sockets (K : Type) := {
  socket : K → K * Z;
  bind : Z → string → Z → K → K * Z;
  listen : Z → Z → K → K * Z;
  accept : Z → K → K * Z;
  recv : Z → Z → K → K * Z;
  send : Z → string → K → K * Z
}.

(** The three functions [main.cpp] registers as handlers. *)
Inductive serverCallback := CbOnClientWrite | CbOnClientDisconnect | CbAcceptLambda.

Definition MAX_BUF_LENGTH : Z := 4096.
Definition TCP_ACCEPT_BACKLOG : Z := 5.

Definition CRLF : string :=
  String (Ascii.ascii_of_nat 13) (String (Ascii.ascii_of_nat 10) EmptyString).

Definition httpHello : string :=
  "HTTP/1.1 200 OK" +:+ CRLF +:+ "Content-Length: 20" +:+ CRLF +:+
  "Content-Type: text/html" +:+ CRLF +:+ CRLF +:+ "<h1>Hello world</h1>".

Definition setKernel {Callback K} (k : K) (w : World Callback K) : World Callback K :=
  {| reactor := reactor w; kernel := k; trace := trace w |}.

Section Server.
Context {K : Type} `{!Kernel K, !Sockets K}.

Definition onClientWrite (clientFd : Z) : M serverCallback K unit := λ w,
  let '(k1, bytesReceived) := recv clientFd MAX_BUF_LENGTH (kernel w) in
  if bytesReceived =? -1 then
    Threw (runtime_error ("Failed to receive data on this socket. (FD"
                          +:+ pretty clientFd +:+ ")")) (setKernel k1 w)
  else
    let '(k2, _) := send clientFd httpHello k1 in
    Done tt (setKernel k2 w).

(** Only prints; the call of [removeDescriptor] is commented out. *)
Definition onClientDisconnect (clientFd : Z) : M serverCallback K unit := Done tt.

Definition tcpAccept (serverFd : Z) : M serverCallback K unit := λ w,
  let '(k1, clientFd) := accept serverFd (kernel w) in
  let w1 := setKernel k1 w in
  if 0 <? clientFd then
    match addDescriptor clientFd w1 with
    | Done _ w2 =>
        match addEventHandler clientFd EPOLLIN (Some CbOnClientWrite) w2 with
        | Done _ w3 =>
            addEventHandler clientFd (Z.lor EPOLLRDHUP EPOLLHUP)
              (Some CbOnClientDisconnect) w3
        | Threw e w3 => Threw e w3
        end
    | Threw e w2 => Threw e w2
    end
  else
    Threw (runtime_error ("Fatal error in tcpAccept of server socket FD"
                          +:+ pretty serverFd +:+ " TCP accept failed. "
                          +:+ pretty clientFd)) w1.

(** What the reactor runs when it invokes a handler of the server. *)
Definition serverInvoke : Callbacks serverCallback K := λ cb fd,
  match cb with
  | CbOnClientWrite => onClientWrite fd
  | CbOnClientDisconnect => onClientDisconnect fd
  | CbAcceptLambda => tcpAccept fd
  end.

(** [startServer]; the value returned is the one assigned to the global
    [serverSocketFd]. *)
Definition startServer (address : string) (port : Z) : M serverCallback K Z := λ w,
  let '(k1, serverSocketFd) := socket (kernel w) in
  if serverSocketFd <=? 0 then
    Threw (runtime_error "Failed to create a server socket (system resource error?)")
      (setKernel k1 w)
  else
    let '(k2, b) := bind serverSocketFd address port k1 in
    if negb (b =? 0) then
      Threw (runtime_error ("Failed bind server socket. (FD" +:+ pretty serverSocketFd
                            +:+ ") (Port: " +:+ pretty port +:+ ")")) (setKernel k2 w)
    else
      let '(k3, l) := listen serverSocketFd TCP_ACCEPT_BACKLOG k2 in
      if negb (l =? 0) then
        Threw (runtime_error ("Failed listen on server socket. (FD"
                              +:+ pretty serverSocketFd +:+ ")")) (setKernel k3 w)
      else
        match addDescriptor serverSocketFd (setKernel k3 w) with
        | Done _ w1 =>
            match addEventHandler serverSocketFd (Z.lor EPOLLIN EPOLLOUT)
                    (Some CbAcceptLambda) w1 with
            | Done _ w2 => Done serverSocketFd w2
            | Threw e w2 => Threw e w2
            end
        | Threw e w1 => Threw e w1
        end.
End Server.

(** A kernel for runs of the server: the scripted kernel, the descriptor
    [socket] is going to return, and the descriptors the next calls of
    [accept] are going to return. *)
Record ServerKernel := {
  base : Demo.TestKernel;
  listening : Z;
  incoming : list Z
}.

Definition liftBase {A} (f : Demo.TestKernel → Demo.TestKernel * A) (k : ServerKernel)
  : ServerKernel * A :=
  let '(b, a) := f (base k) in
  ({| base := b; listening := listening k; incoming := incoming k |}, a).

#[export] Instance serverKernel : Kernel ServerKernel := {|
  epoll_create1 := λ flags, liftBase (epoll_create1 (Kernel := Demo.testKernel) flags);
  epoll_ctl := λ epfd op fd ev, liftBase (epoll_ctl (Kernel := Demo.testKernel) epfd op fd ev);
  epoll_wait := λ epfd n t, liftBase (epoll_wait (Kernel := Demo.testKernel) epfd n t);
  fcntl_getfl := λ fd, liftBase (fcntl_getfl (Kernel := Demo.testKernel) fd);
  fcntl_setfl := λ fd fl, liftBase (fcntl_setfl (Kernel := Demo.testKernel) fd fl)
|}.

#[export] Instance serverSockets : Sockets ServerKernel := {|
  socket := λ k, (k, listening k);
  bind := λ _ _ _ k, (k, 0);
  listen := λ _ _ k, (k, 0);
  accept := λ _ k,
    match incoming k with
    | [] => (k, -1)
    | fd :: rest => ({| base := base k; listening := listening k; incoming := rest |}, fd)
    end;
  recv := λ fd _ k, (k, if Demo.isClosed fd (base k) then -1 else 0);
  send := λ _ msg k, (k, Z.of_nat (String.length msg))
|}.

(** The state of the server process once the global reactor is
    constructed (edge-triggered), before [main] runs. *)
Definition serverBoot (listeningFd : Z) (clients : list Z)
    (batches : list (list epoll_event)) : World serverCallback ServerKernel :=
  after (construct true
           {| base := {| Demo.interest := ∅; Demo.closed := []; Demo.pending := batches |};
              listening := listeningFd; incoming := clients |}).

(** Level-triggered reactor with the handlers of the server. Descriptor
    5 is already closed, its readable handler is [onClientWrite] (the
    failed kernel add leaves the slot written), and the kernel reports
    it readable. *)
Definition closedClient5 : World serverCallback ServerKernel :=
  performAll serverInvoke
    [AddDescriptor 5; AddEventHandler 5 EPOLLIN (Some CbOnClientWrite)]
    (after (construct false
       {| base := {| Demo.interest := ∅; Demo.closed := [5];
                     Demo.pending := [[{| events := EPOLLIN; data_fd := 5 |}]] |};
          listening := 4; incoming := [] |})).

(** ** The invocations of a wait-cycle *)

(** The callback invocations the dispatch loops perform, in order: each
    with the callback, its argument and the world it is invoked in (the
    invocation is already logged there). A callback that throws is the
    last one invoked. *)
Fixpoint callsOfCategories {Callback K} (invoke : Callbacks Callback K)
  (fd evs : Z) (evts : list Z) (w : World Callback K)
  : list (Callback * Z * World Callback K) :=
  match evts with
  | [] => []
  | evt :: rest =>
      match registry w !! fd with
      | None => []
      | Some md =>
          if hasHandler md (Z.land evs evt) then
            match getHandler md (Z.land evs evt) with
            | inr (Some cb) =>
                (cb, fd, logInvoke fd (Z.land evs evt) w) ::
                match invoke cb fd (logInvoke fd (Z.land evs evt) w) with
                | Done _ w1 => callsOfCategories invoke fd evs rest w1
                | Threw _ _ => []
                end
            | _ => []
            end
          else callsOfCategories invoke fd evs rest w
      end
  end.

Fixpoint callsOf {Callback K} `{!Kernel K} (invoke : Callbacks Callback K)
  (reported : list epoll_event) (w : World Callback K)
  : list (Callback * Z * World Callback K) :=
  match reported with
  | [] => []
  | ev :: rest =>
      callsOfCategories invoke (data_fd ev) (events ev) allEventTypes w ++
      match dispatchOne invoke ev w with
      | Done Continue w1 => callsOf invoke rest w1
      | _ => []
      end
  end.

(** The invocation [c] does not register [fd]: if [fd] is absent when
    the callback starts, it is absent when the callback ends. *)
Definition keepsAbsent {Callback K} (invoke : Callbacks Callback K) (fd : Z)
  (c : Callback * Z * World Callback K) : Prop :=
  registry c.2 !! fd = None →
  registry (after (invoke c.1.1 c.1.2 c.2)) !! fd = None.

(** The invocation [c] returns. *)
Definition returns {Callback K} (invoke : Callbacks Callback K)
  (c : Callback * Z * World Callback K) : Prop :=
  returned (invoke c.1.1 c.1.2 c.2) = true.

(** * Facts about the embedding *)

(** ** Categories are single bits *)

Lemma elem_of_allEventTypes (evt : Z) :
  evt ∈ allEventTypes ↔
  evt = EPOLLIN ∨ evt = EPOLLOUT ∨ evt = EPOLLRDHUP ∨
  evt = EPOLLPRI ∨ evt = EPOLLERR ∨ evt = EPOLLHUP.
Proof.
  unfold allEventTypes. rewrite !elem_of_cons, elem_of_nil. tauto.
Qed.

Lemma land_pow2 (m : Z) (n : Z) :
  0 ≤ n → Z.land m (2 ^ n) = if Z.testbit m n then 2 ^ n else 0.
Proof.
  intros Hn. apply Z.bits_inj'. intros i Hi.
  rewrite Z.land_spec, Z.pow2_bits_eqb by done.
  destruct (Z.eqb_spec n i) as [-> | Hne].
  - destruct (Z.testbit m i); simpl.
    + by rewrite Z.pow2_bits_true.
    + by rewrite Z.bits_0.
  - rewrite andb_false_r. destruct (Z.testbit m n).
    + by rewrite Z.pow2_bits_false.
    + by rewrite Z.bits_0.
Qed.

Lemma land_category (m evt : Z) :
  evt ∈ allEventTypes → Z.land m evt = 0 ∨ Z.land m evt = evt.
Proof.
  rewrite elem_of_allEventTypes.
  intros [-> | [-> | [-> | [-> | [-> | ->]]]]].
  - change EPOLLIN with (2 ^ 0). rewrite land_pow2 by lia. destruct (Z.testbit m 0); auto.
  - change EPOLLOUT with (2 ^ 2). rewrite land_pow2 by lia. destruct (Z.testbit m 2); auto.
  - change EPOLLRDHUP with (2 ^ 13). rewrite land_pow2 by lia. destruct (Z.testbit m 13); auto.
  - change EPOLLPRI with (2 ^ 1). rewrite land_pow2 by lia. destruct (Z.testbit m 1); auto.
  - change EPOLLERR with (2 ^ 3). rewrite land_pow2 by lia. destruct (Z.testbit m 3); auto.
  - change EPOLLHUP with (2 ^ 4). rewrite land_pow2 by lia. destruct (Z.testbit m 4); auto.
Qed.

Lemma selects_land (m evt : Z) :
  evt ∈ allEventTypes → Z.land m evt = if selects m evt then evt else 0.
Proof.
  intros He. unfold selects.
  destruct (land_category m evt He) as [H|H]; rewrite H.
  - reflexivity.
  - rewrite elem_of_allEventTypes in He.
    by destruct He as [-> | [-> | [-> | [-> | [-> | ->]]]]].
Qed.

Section DescriptorFacts.
Context {Callback : Type}.
Implicit Types (md : MonitoredDescriptor Callback) (h : handler Callback).

Lemma hasHandler_getHandler md evt :
    evt ∈ allEventTypes →
    ∃ h, getHandler md evt = inr h ∧ hasHandler md evt = nonnull h.
Proof.
    rewrite elem_of_allEventTypes.
    intros [-> | [-> | [-> | [-> | [-> | ->]]]]]; eexists; split; reflexivity.
Qed.

Lemma hasHandler_zero md : hasHandler md 0 = false.
Proof. reflexivity. Qed.

Lemma getHandler_setInitialized md b evt :
    getHandler (setInitialized md b) evt = getHandler md evt.
Proof. reflexivity. Qed.

Lemma hasHandler_setInitialized md b evt :
    hasHandler (setInitialized md b) evt = hasHandler md evt.
Proof. reflexivity. Qed.

(** What the loop of [addEventHandler] leaves in each slot. *)
Lemma getHandler_installHandlers md eventType h evt :
    evt ∈ allEventTypes →
    getHandler (installHandlers eventType h md) evt =
      if selects eventType evt then inr h else getHandler md evt.
Proof.
    intros He. unfold installHandlers, allEventTypes, selects. cbn [fold_left].
    destruct md.
    destruct (Z.land eventType EPOLLIN =? 0) eqn:E1,
             (Z.land eventType EPOLLOUT =? 0) eqn:E2,
             (Z.land eventType EPOLLRDHUP =? 0) eqn:E3,
             (Z.land eventType EPOLLPRI =? 0) eqn:E4,
             (Z.land eventType EPOLLERR =? 0) eqn:E5,
             (Z.land eventType EPOLLHUP =? 0) eqn:E6;
      rewrite elem_of_allEventTypes in He;
      destruct He as [-> | [-> | [-> | [-> | [-> | ->]]]]];
      rewrite ?E1, ?E2, ?E3, ?E4, ?E5, ?E6; reflexivity.
Qed.

Lemma installHandlers_frame md eventType h :
    isInitialized (installHandlers eventType h md) = isInitialized md ∧
    monitoredFd (installHandlers eventType h md) = monitoredFd md.
Proof.
    unfold installHandlers, allEventTypes. cbn [fold_left]. destruct md.
    destruct (Z.land eventType EPOLLIN =? 0),
             (Z.land eventType EPOLLOUT =? 0),
             (Z.land eventType EPOLLRDHUP =? 0),
             (Z.land eventType EPOLLPRI =? 0),
             (Z.land eventType EPOLLERR =? 0),
             (Z.land eventType EPOLLHUP =? 0); split; reflexivity.
Qed.

Lemma clearStep_eq md eventType evt :
  evt ∈ allEventTypes →
  (if hasHandler md (Z.land eventType evt)
   then setHandler md (Z.land eventType evt) None else md) =
  (if Z.land eventType evt =? 0 then md else setHandler md evt None).
Proof.
  intros He. rewrite (selects_land eventType evt He).
  pose proof (selects_land eventType evt He) as Hl. unfold selects in *.
  destruct (Z.land eventType evt =? 0) eqn:E; cbn [negb] in *.
  - reflexivity.
  - rewrite elem_of_allEventTypes in He.
    destruct md as [i fd hin hout hrd hpri herr hhup].
    destruct He as [-> | [-> | [-> | [-> | [-> | ->]]]]]; cbn.
    + by destruct hin.
    + by destruct hout.
    + by destruct hrd.
    + by destruct hpri.
    + by destruct herr.
    + by destruct hhup.
Qed.

(** The loop of [removeEventHandler] stores the empty function in the
    slots the loop of [addEventHandler] would have written. *)
Lemma clearHandlers_installHandlers md eventType :
  clearHandlers eventType md = installHandlers eventType None md.
Proof.
  unfold clearHandlers, installHandlers, allEventTypes. cbn [fold_left].
  rewrite !clearStep_eq by (rewrite elem_of_allEventTypes; tauto).
  reflexivity.
Qed.

Lemma getHandler_clearHandlers md eventType evt :
  evt ∈ allEventTypes →
  getHandler (clearHandlers eventType md) evt =
    if selects eventType evt then inr None else getHandler md evt.
Proof.
  rewrite clearHandlers_installHandlers. apply getHandler_installHandlers.
Qed.
End DescriptorFacts.

(** ** The subscription mask *)

Lemma resultingEvents_spec {Callback} (edge : bool) (md : MonitoredDescriptor Callback) :
  resultingEvents edge md = spec_subscriptionMask edge md.
Proof.
  destruct md as [i fd [?|] [?|] [?|] [?|] [?|] [?|]], edge; reflexivity.
Qed.

Lemma setInitialized_id {Callback} (md : MonitoredDescriptor Callback) :
  setInitialized md (isInitialized md) = md.
Proof. by destruct md. Qed.

(** ** The reactor's operations *)

Section ReactorFacts.
Context {Callback K : Type} `{!Kernel K}.
Implicit Types (w : World Callback K) (md : MonitoredDescriptor Callback).
Implicit Types (h : handler Callback) (fd slot : Z).

Lemma reload_unfold slot md w :
  _reloadEventHandlers slot md w =
    let k := (subscriptionCall w md).1 in
    let r := (subscriptionCall w md).2 in
    let w1 := syscall k (subscriptionEvent w md r) w in
    if r =? -1 then
      Threw (runtime_error
        (if isInitialized md
         then "Epoll::_epollCtlModify: ERROR - Failed modifying file descriptor events."
         else "Epoll::_epollCtlAdd: ERROR - Failed adding event to descriptor.")) w1
    else if isInitialized md then Done tt w1
    else Done tt (setRegistry (<[slot := setInitialized md true]> (registry w)) w1).
Proof.
  unfold _reloadEventHandlers, subscriptionCall, subscriptionEvent,
    subscriptionOp, subscriptionArg, _epollCtlModify, _epollCtlAdd.
  destruct (isInitialized md);
    destruct (epoll_ctl _ _ _ _ _) as [k r]; cbn [fst snd];
    destruct (r =? -1); reflexivity.
Qed.

Lemma reload_trace slot md w :
  trace (after (_reloadEventHandlers slot md w)) =
    trace w ++ [subscriptionEvent w md (subscriptionCall w md).2].
Proof.
  rewrite reload_unfold. cbn zeta.
  destruct (_ =? -1), (isInitialized md); reflexivity.
Qed.

Lemma reload_registry slot md w :
  registry (after (_reloadEventHandlers slot md w)) =
    if (subscriptionCall w md).2 =? -1 then registry w
    else if isInitialized md then registry w
    else <[slot := setInitialized md true]> (registry w).
Proof.
  rewrite reload_unfold. cbn zeta.
  destruct (_ =? -1), (isInitialized md); reflexivity.
Qed.

Lemma reload_lookup slot md w :
  registry w !! slot = Some md →
  registry (after (_reloadEventHandlers slot md w)) !! slot =
    Some (setInitialized md
            (isInitialized md || negb ((subscriptionCall w md).2 =? -1))).
Proof.
  intros Hm. rewrite reload_registry.
  destruct (_ =? -1); cbn [negb]; [|destruct (isInitialized md) eqn:Hi; cbn [orb]].
  - by rewrite orb_false_r, setInitialized_id.
  - by rewrite <- Hi, setInitialized_id.
  - by rewrite lookup_insert_eq.
Qed.

Lemma registry_setRegistry m w : registry (setRegistry m w) = m.
Proof. reflexivity. Qed.

Lemma addEventHandler_registered fd eventType h md w :
  registry w !! fd = Some md →
  addEventHandler fd eventType h w =
    _reloadEventHandlers fd (installHandlers eventType h md)
      (setRegistry (<[fd := installHandlers eventType h md]> (registry w)) w).
Proof. intros Hm. unfold addEventHandler. by rewrite Hm. Qed.

Lemma removeEventHandler_registered fd eventType md w :
  registry w !! fd = Some md →
  removeEventHandler fd eventType w =
    _reloadEventHandlers fd (clearHandlers eventType md)
      (setRegistry (<[fd := clearHandlers eventType md]> (registry w)) w).
Proof. intros Hm. unfold removeEventHandler. by rewrite Hm. Qed.

(** The entry found under [fd] after [addEventHandler], whether the call
    returned or threw: the handlers are the installed ones. *)
Lemma addEventHandler_lookup fd eventType h md w :
  registry w !! fd = Some md →
  ∃ b, registry (after (addEventHandler fd eventType h w)) !! fd =
         Some (setInitialized (installHandlers eventType h md) b).
Proof.
  intros Hm. rewrite (addEventHandler_registered _ _ _ _ _ Hm).
  eexists. apply reload_lookup. rewrite registry_setRegistry.
  apply lookup_insert_eq.
Qed.

Lemma removeEventHandler_lookup fd eventType md w :
  registry w !! fd = Some md →
  ∃ b, registry (after (removeEventHandler fd eventType w)) !! fd =
         Some (setInitialized (clearHandlers eventType md) b).
Proof.
  intros Hm. rewrite (removeEventHandler_registered _ _ _ _ Hm).
  eexists. apply reload_lookup. rewrite registry_setRegistry.
  apply lookup_insert_eq.
Qed.

(** ** Handler management *)

(** C4 — [addEventHandler] on a descriptor that is not in the registry
    throws the precondition error; no kernel call is made, and the
    registry, the kernel and the trace are the ones before the call. *)
Theorem addEventHandler_unregistered fd eventType h w :
  registry w !! fd = None →
  ∃ what,
    addEventHandler fd eventType h w = Threw (runtime_error what) w ∧
    registry (after (addEventHandler fd eventType h w)) = registry w ∧
    kernel (after (addEventHandler fd eventType h w)) = kernel w ∧
    trace (after (addEventHandler fd eventType h w)) = trace w.
Proof.
  intros Hm. unfold addEventHandler. rewrite Hm. eauto.
Qed.

Lemma installed_entry fd eventType cb md w :
  registry w !! fd = Some md →
  ∃ md',
    registry (after (addEventHandler fd eventType (Some cb) w)) !! fd = Some md' ∧
    ∀ evt, evt ∈ allEventTypes → Z.land eventType evt ≠ 0 →
      hasHandler md' evt = true ∧ getHandler md' evt = inr (Some cb).
Proof.
  intros Hm.
  destruct (addEventHandler_lookup fd eventType (Some cb) md w Hm) as [b Hb].
  eexists; split; [exact Hb|]. intros evt He Hne.
  assert (Hg : getHandler (setInitialized (installHandlers eventType (Some cb) md) b) evt
               = inr (Some cb)).
  { rewrite getHandler_setInitialized, getHandler_installHandlers by done.
    unfold selects. by destruct (Z.eqb_spec (Z.land eventType evt) 0). }
  split; [|exact Hg].
  destruct (hasHandler_getHandler
              (setInitialized (installHandlers eventType (Some cb) md) b) evt He)
    as (h' & Hh' & ->).
  rewrite Hg in Hh'. by inversion Hh'.
Qed.

Lemma cleared_entry fd eventType md w :
  registry w !! fd = Some md →
  ∃ md',
    registry (after (removeEventHandler fd eventType w)) !! fd = Some md' ∧
    ∀ evt, evt ∈ allEventTypes →
      (Z.land eventType evt ≠ 0 →
         hasHandler md' evt = false ∧ getHandler md' evt = inr None) ∧
      (Z.land eventType evt = 0 →
         hasHandler md' evt = hasHandler md evt ∧
         getHandler md' evt = getHandler md evt).
Proof.
  intros Hm.
  destruct (removeEventHandler_lookup fd eventType md w Hm) as [b Hb].
  eexists; split; [exact Hb|]. intros evt He.
  set (md' := setInitialized (clearHandlers eventType md) b).
  assert (Hg : getHandler md' evt =
               if selects eventType evt then inr None else getHandler md evt).
  { unfold md'. by rewrite getHandler_setInitialized, getHandler_clearHandlers. }
  destruct (hasHandler_getHandler md' evt He) as (h' & Hh' & Hhas).
  destruct (hasHandler_getHandler md evt He) as (h0 & Hh0 & Hhas0).
  unfold selects in Hg.
  split; intros Hland; destruct (Z.eqb_spec (Z.land eventType evt) 0);
    try done; cbn [negb] in Hg.
  - rewrite Hg in Hh'. inversion Hh'; subst h'. by rewrite Hhas, Hg.
  - rewrite Hg, Hh0 in Hh'. inversion Hh'; subst h'.
    by rewrite Hhas, Hhas0, Hg.
Qed.

Lemma category_IN : EPOLLIN ∈ allEventTypes.
Proof. rewrite elem_of_allEventTypes; tauto. Qed.

Lemma category_OUT : EPOLLOUT ∈ allEventTypes.
Proof. rewrite elem_of_allEventTypes; tauto. Qed.

(** C7 — after [addEventHandler(fd, EPOLLIN | EPOLLOUT, cb)] on a
    registered descriptor, both categories have a handler and both
    resolve to [cb]; in general every category present in the mask gets
    the same callback [cb]. *)
Theorem addEventHandler_installs fd cb md w :
  registry w !! fd = Some md →
  (∃ md',
     registry (after (addEventHandler fd (Z.lor EPOLLIN EPOLLOUT) (Some cb) w)) !! fd
       = Some md' ∧
     hasHandler md' EPOLLIN = true ∧ hasHandler md' EPOLLOUT = true ∧
     getHandler md' EPOLLIN = inr (Some cb) ∧
     getHandler md' EPOLLOUT = inr (Some cb)) ∧
  (∀ eventType, ∃ md',
     registry (after (addEventHandler fd eventType (Some cb) w)) !! fd = Some md' ∧
     ∀ evt, evt ∈ allEventTypes → Z.land eventType evt ≠ 0 →
       hasHandler md' evt = true ∧ getHandler md' evt = inr (Some cb)).
Proof.
  intros Hm. split; [|intros eventType; by apply (installed_entry _ _ _ md)].
  destruct (installed_entry fd (Z.lor EPOLLIN EPOLLOUT) cb md w Hm) as (md' & Hl & Hall).
  exists md'. split; [exact Hl|].
  destruct (Hall EPOLLIN category_IN) as [? ?]; [done|].
  destruct (Hall EPOLLOUT category_OUT) as [? ?]; [done|].
  done.
Qed.

(** C8 — [removeEventHandler(fd, mask)] empties the slots of the
    categories in the mask and leaves the slot of every other category
    as it was; after [addEventHandler(fd, EPOLLIN | EPOLLOUT, cb)] and
    [removeEventHandler(fd, EPOLLIN)] the readable handler is gone and
    the writable one is still there. *)
Theorem removeEventHandler_clears fd md w :
  registry w !! fd = Some md →
  (∀ eventType, ∃ md',
     registry (after (removeEventHandler fd eventType w)) !! fd = Some md' ∧
     ∀ evt, evt ∈ allEventTypes →
       (Z.land eventType evt ≠ 0 →
          hasHandler md' evt = false ∧ getHandler md' evt = inr None) ∧
       (Z.land eventType evt = 0 →
          hasHandler md' evt = hasHandler md evt ∧
          getHandler md' evt = getHandler md evt)) ∧
  (∀ cb, ∃ md',
     registry (after (removeEventHandler fd EPOLLIN
        (after (addEventHandler fd (Z.lor EPOLLIN EPOLLOUT) (Some cb) w)))) !! fd
       = Some md' ∧
     hasHandler md' EPOLLIN = false ∧ hasHandler md' EPOLLOUT = true).
Proof.
  intros Hm. split; [intros eventType; by apply (cleared_entry _ _ md)|].
  intros cb.
  destruct (installed_entry fd (Z.lor EPOLLIN EPOLLOUT) cb md w Hm) as (md1 & Hl1 & Hall1).
  destruct (cleared_entry fd EPOLLIN md1 _ Hl1) as (md2 & Hl2 & Hall).
  exists md2. split; [exact Hl2|].
  destruct (Hall EPOLLIN category_IN) as [Hin _].
  destruct (Hall EPOLLOUT category_OUT) as [_ Hkeep].
  destruct (Hall1 EPOLLOUT category_OUT) as [Hout _]; [done|].
  split; [by apply Hin|]. destruct Hkeep as [-> _]; done.
Qed.

(** ** Kernel subscriptions *)

Lemma subscriptionCall_setRegistry m md w :
  subscriptionCall (setRegistry m w) md = subscriptionCall w md.
Proof. reflexivity. Qed.

Lemma subscriptionEvent_setRegistry m md w r :
  subscriptionEvent (setRegistry m w) md r = subscriptionEvent w md r.
Proof. reflexivity. Qed.

(** What a handler update followed by [_reloadEventHandlers] does, for
    the updated entry [md'] written under [fd]. *)
Lemma update_then_reload fd md' w :
  let w1 := setRegistry (<[fd := md']> (registry w)) w in
  let r := (subscriptionCall w md').2 in
  trace (after (_reloadEventHandlers fd md' w1)) = trace w ++ [subscriptionEvent w md' r] ∧
  registry (after (_reloadEventHandlers fd md' w1)) !! fd =
    Some (setInitialized md' (isInitialized md' || negb (r =? -1))) ∧
  (r = -1 →
   ∃ what w', _reloadEventHandlers fd md' w1 = Threw (runtime_error what) w' ∧
              registry w' = <[fd := md']> (registry w)).
Proof.
  intros w1 r. subst w1 r. split; [|split].
  - by rewrite reload_trace.
  - rewrite reload_lookup; [done|]. apply lookup_insert_eq.
  - intros Hr. rewrite reload_unfold. cbn zeta.
    rewrite subscriptionCall_setRegistry, Hr. cbn.
    eauto.
Qed.

(** C3 — when the kernel call made by [addEventHandler] or
    [removeEventHandler] fails (the trace shows it returning -1), the
    operation throws and the registry is the one that was there right
    before the kernel call: the entry of [fd] with its slots updated and
    its [isInitialized] flag as before, so a failed add leaves the flag
    false. *)
Theorem kernel_failure_keeps_registry fd eventType h md w epfd op fd' ev :
  registry w !! fd = Some md →
  (trace (after (addEventHandler fd eventType h w))
     = trace w ++ [SysEpollCtl epfd op fd' ev (-1)] →
   ∃ what w' md',
     addEventHandler fd eventType h w = Threw (runtime_error what) w' ∧
     registry w' = <[fd := installHandlers eventType h md]> (registry w) ∧
     registry w' !! fd = Some md' ∧
     isInitialized md' = isInitialized md ∧
     (op = EPOLL_CTL_ADD → isInitialized md' = false)) ∧
  (trace (after (removeEventHandler fd eventType w))
     = trace w ++ [SysEpollCtl epfd op fd' ev (-1)] →
   ∃ what w' md',
     removeEventHandler fd eventType w = Threw (runtime_error what) w' ∧
     registry w' = <[fd := clearHandlers eventType md]> (registry w) ∧
     registry w' !! fd = Some md' ∧
     isInitialized md' = isInitialized md ∧
     (op = EPOLL_CTL_ADD → isInitialized md' = false)).
Proof.
  intros Hm.
  assert (Hcore : ∀ md', isInitialized md' = isInitialized md →
    trace (after (_reloadEventHandlers fd md' (setRegistry (<[fd := md']> (registry w)) w)))
      = trace w ++ [SysEpollCtl epfd op fd' ev (-1)] →
    ∃ what w' md'',
      _reloadEventHandlers fd md' (setRegistry (<[fd := md']> (registry w)) w)
        = Threw (runtime_error what) w' ∧
      registry w' = <[fd := md']> (registry w) ∧
      registry w' !! fd = Some md'' ∧
      isInitialized md'' = isInitialized md ∧
      (op = EPOLL_CTL_ADD → isInitialized md'' = false)).
  { intros md' Hinit Htr.
    destruct (update_then_reload fd md' w) as (Ht & _ & Hfail).
    rewrite Ht in Htr. apply app_inv_head in Htr.
    unfold subscriptionEvent in Htr. injection Htr as He Hop Hfd Hev Hr.
    destruct (Hfail Hr) as (what & w' & Hthrow & Hreg).
    exists what, w', md'. split; [exact Hthrow|]. split; [exact Hreg|].
    rewrite Hreg, lookup_insert_eq. split; [done|]. split; [done|].
    intros ->. unfold subscriptionOp in Hop. rewrite Hinit in Hop.
    by destruct (isInitialized md). }
  split; intros Htr.
  - rewrite (addEventHandler_registered _ _ _ _ _ Hm) in *.
    apply Hcore; [apply installHandlers_frame|done].
  - rewrite (removeEventHandler_registered _ _ _ _ Hm) in *.
    apply Hcore; [|done].
    rewrite clearHandlers_installHandlers. apply installHandlers_frame.
Qed.

Lemma spec_subscriptionMask_setInitialized edge md b :
  spec_subscriptionMask edge (setInitialized md b) = spec_subscriptionMask edge md.
Proof. reflexivity. Qed.

(** C5 — the mask computed by [_reloadEventHandlers] is the union of
    the categories that hold a handler, with [EPOLLET] added in
    edge-triggered mode (also when no handler is set); after a handler
    addition or removal the reactor issues exactly one kernel call with
    the mask of the entry as it now stands: [EPOLL_CTL_ADD] when the
    entry was not initialized, and the entry is then marked initialized
    if the call succeeds, [EPOLL_CTL_MOD] with the complete mask
    otherwise. *)
Theorem subscription_recomputed fd eventType h md w :
  registry w !! fd = Some md →
  (∀ edge md0, resultingEvents edge md0 = spec_subscriptionMask (Callback := Callback) edge md0) ∧
  (∃ md' r,
     registry (after (addEventHandler fd eventType h w)) !! fd = Some md' ∧
     trace (after (addEventHandler fd eventType h w)) =
       trace w ++ [SysEpollCtl (_epollFd (reactor w))
                     (if isInitialized md then EPOLL_CTL_MOD else EPOLL_CTL_ADD)
                     (monitoredFd md)
                     {| events := spec_subscriptionMask (_isEdgeTriggered (reactor w)) md';
                        data_fd := monitoredFd md |} r] ∧
     (r ≠ -1 → isInitialized md' = true)) ∧
  (∃ md' r,
     registry (after (removeEventHandler fd eventType w)) !! fd = Some md' ∧
     trace (after (removeEventHandler fd eventType w)) =
       trace w ++ [SysEpollCtl (_epollFd (reactor w))
                     (if isInitialized md then EPOLL_CTL_MOD else EPOLL_CTL_ADD)
                     (monitoredFd md)
                     {| events := spec_subscriptionMask (_isEdgeTriggered (reactor w)) md';
                        data_fd := monitoredFd md |} r] ∧
     (r ≠ -1 → isInitialized md' = true)).
Proof.
  intros Hm.
  assert (Hcore : ∀ md1, isInitialized md1 = isInitialized md →
    monitoredFd md1 = monitoredFd md →
    ∃ md' r,
      registry (after (_reloadEventHandlers fd md1
                         (setRegistry (<[fd := md1]> (registry w)) w))) !! fd = Some md' ∧
      trace (after (_reloadEventHandlers fd md1
                      (setRegistry (<[fd := md1]> (registry w)) w))) =
        trace w ++ [SysEpollCtl (_epollFd (reactor w))
                      (if isInitialized md then EPOLL_CTL_MOD else EPOLL_CTL_ADD)
                      (monitoredFd md)
                      {| events := spec_subscriptionMask (_isEdgeTriggered (reactor w)) md';
                         data_fd := monitoredFd md |} r] ∧
      (r ≠ -1 → isInitialized md' = true)).
  { intros md1 Hi Hfd.
    destruct (update_then_reload fd md1 w) as (Ht & Hl & _).
    eexists _, _. split; [exact Hl|]. split.
    - rewrite Ht. unfold subscriptionEvent, subscriptionOp, subscriptionArg.
      by rewrite spec_subscriptionMask_setInitialized, resultingEvents_spec, Hi, Hfd.
    - intros Hr. cbn. destruct (Z.eqb_spec (subscriptionCall w md1).2 (-1)); [done|].
      apply orb_true_r. }
  split; [intros; apply resultingEvents_spec|]. split.
  - rewrite (addEventHandler_registered _ _ _ _ _ Hm).
    apply Hcore; apply installHandlers_frame.
  - rewrite (removeEventHandler_registered _ _ _ _ Hm).
    rewrite clearHandlers_installHandlers.
    apply Hcore; apply installHandlers_frame.
Qed.

(** ** Descriptors *)

Lemma setNonBlocking_reactor fd w :
  reactor (after (_setNonBlocking fd w)) = reactor w.
Proof.
  unfold _setNonBlocking.
  destruct (fcntl_getfl fd (kernel w)) as [k1 fl].
  destruct (fcntl_setfl fd (Z.lor fl O_NONBLOCK) k1) as [k2 r].
  by destruct (r =? -1).
Qed.

Lemma addDescriptor_registry fd w :
  registry (after (addDescriptor fd w)) =
    match registry w !! fd with
    | Some _ => registry w
    | None => <[fd := newDescriptor fd]> (registry w)
    end.
Proof.
  unfold addDescriptor.
  destruct (registry w !! fd);
    (destruct (_isEdgeTriggered _);
     [unfold registry; by rewrite setNonBlocking_reactor | done]).
Qed.

Lemma addDescriptor_reactor_fields fd w :
  _epollFd (reactor (after (addDescriptor fd w))) = _epollFd (reactor w) ∧
  _isEdgeTriggered (reactor (after (addDescriptor fd w))) = _isEdgeTriggered (reactor w).
Proof.
  unfold addDescriptor.
  destruct (registry w !! fd);
    (destruct (_isEdgeTriggered _) eqn:E;
     [rewrite setNonBlocking_reactor; cbn; by rewrite ?E | cbn; by rewrite ?E]).
Qed.

Lemma addDescriptor_fresh fd w :
  registry w !! fd = None →
  registry (after (addDescriptor fd w)) !! fd = Some (newDescriptor fd).
Proof.
  intros Hm. rewrite addDescriptor_registry, Hm. apply lookup_insert_eq.
Qed.

Lemma addDescriptor_present fd w :
  is_Some (registry w !! fd) →
  registry (after (addDescriptor fd w)) = registry w.
Proof.
  intros [md Hm]. by rewrite addDescriptor_registry, Hm.
Qed.

Lemma addDescriptor_registers fd w :
  is_Some (registry (after (addDescriptor fd w)) !! fd).
Proof.
  rewrite addDescriptor_registry.
  destruct (registry w !! fd) eqn:E; [by rewrite E|].
  rewrite lookup_insert_eq. eauto.
Qed.

Lemma occurrences_Some (m : gmap Z (MonitoredDescriptor Callback)) fd md :
  m !! fd = Some md → occurrences fd m = 1%nat.
Proof.
  intros Hm. unfold occurrences.
  rewrite <- (map_to_list_delete m fd md Hm).
  rewrite filter_cons_True by done. cbn [length]. f_equal.
  destruct (filter _ _) as [|[k v] l] eqn:E; [done|].
  assert (Hin : (k, v) ∈ filter (λ p : Z * MonitoredDescriptor Callback, p.1 = fd)
                          (map_to_list (delete fd m))).
  { rewrite E. left. }
  apply list_elem_of_filter in Hin as [Hk Hin]. cbn in Hk. subst k.
  apply elem_of_map_to_list in Hin. by rewrite lookup_delete_eq in Hin.
Qed.

Lemma repeatAddDescriptor_registry n fd w :
  is_Some (registry w !! fd) →
  registry (repeatAddDescriptor n fd w) = registry w.
Proof.
  revert w. induction n as [|n IH]; intros w Hm; [done|]. cbn.
  rewrite IH; rewrite addDescriptor_present; done.
Qed.

(** C6 — after one or more [addDescriptor(fd)] calls the registry
    snapshot has [fd] exactly once, and adding a descriptor that is
    already registered leaves the registry, and so the entry with its
    handlers, as it was. *)
Theorem addDescriptor_idempotent fd w :
  (∀ n, (0 < n)%nat →
     occurrences fd (registry (repeatAddDescriptor n fd w)) = 1%nat) ∧
  (∀ md, registry w !! fd = Some md →
     registry (after (addDescriptor fd w)) = registry w ∧
     registry (after (addDescriptor fd w)) !! fd = Some md ∧
     ∀ n, registry (repeatAddDescriptor n fd w) !! fd = Some md).
Proof.
  split.
  - intros [|n] Hn; [lia|]. cbn.
    destruct (addDescriptor_registers fd w) as [md Hm].
    apply (occurrences_Some _ _ md).
    rewrite repeatAddDescriptor_registry; [done|eauto].
  - intros md Hm. split; [|split].
    + apply addDescriptor_present; eauto.
    + rewrite addDescriptor_present; eauto.
    + intros n. rewrite repeatAddDescriptor_registry; eauto.
Qed.

Lemma removeDescriptor_done fd w :
  ∃ w', removeDescriptor fd w = Done tt w' ∧
        registry w' = delete fd (registry w) ∧
        reactor w' = reactor (setRegistry (delete fd (registry w)) w).
Proof.
  unfold removeDescriptor, _epollCtlDelete.
  destruct (registry w !! fd) eqn:Hm.
  - destruct (epoll_ctl _ _ _ _ _) as [k r]. eexists. split; [done|]. by split.
  - exists w. split; [done|]. rewrite delete_id by done.
    split; [done|]. unfold setRegistry, registry. by destruct w as [[] ? ?].
Qed.

Lemma removeDescriptor_absent fd w :
  registry (after (removeDescriptor fd w)) !! fd = None.
Proof.
  destruct (removeDescriptor_done fd w) as (w' & -> & Hr & _).
  cbn. rewrite Hr. apply lookup_delete_eq.
Qed.

Lemma removeDescriptor_keeps_absent fd fd' w :
  registry w !! fd = None →
  registry (after (removeDescriptor fd' w)) !! fd = None.
Proof.
  intros Hm. destruct (removeDescriptor_done fd' w) as (w' & -> & Hr & _).
  cbn. rewrite Hr, lookup_delete. by case_decide.
Qed.

End ReactorFacts.

(** ** The dispatch loop *)

Section DispatchFacts.
Context {Callback K : Type} `{!Kernel K}.
Variable invoke : Callbacks Callback K.
Implicit Types (w : World Callback K) (md : MonitoredDescriptor Callback).
Implicit Types (fd evs : Z) (ev : epoll_event).

Lemma waitForEvents_unfold timeout w :
  waitForEvents invoke timeout w =
    match dispatchEvents invoke (reportedBatch timeout w) (enterWait timeout w) with
    | Done _ w1 => Done tt w1
    | Threw e w1 => Threw e w1
    end.
Proof.
  unfold waitForEvents, reportedBatch, enterWait.
  destruct (epoll_wait _ _ _ _) as [k [n buf]]. reflexivity.
Qed.

(** The guard of line 48: once the descriptor is gone, the remaining
    categories are not looked at and no handler is invoked. *)
Lemma dispatchCategories_unregistered fd evs evt rest w :
  registry w !! fd = None →
  dispatchCategories invoke fd evs (evt :: rest) w = Done Return w.
Proof. intros Hm. cbn. by rewrite Hm. Qed.

Lemma dispatchCategories_keeps_absent fd fd' evs evts w :
  neverRegisters invoke fd →
  registry w !! fd = None →
  registry (after (dispatchCategories invoke fd' evs evts w)) !! fd = None.
Proof.
  intros Hnr. revert w. induction evts as [|evt rest IH]; intros w Hm; [done|].
  cbn. destruct (registry w !! fd') as [md|]; [|done].
  destruct (hasHandler md (Z.land evs evt)); [|by apply IH].
  destruct (getHandler md (Z.land evs evt)) as [e|[cb|]]; [done| |done].
  pose proof (Hnr cb fd' (logInvoke fd' (Z.land evs evt) w) Hm) as Hcb.
  destruct (invoke cb fd' _) as [[] w1|e w1]; [by apply IH|done].
Qed.

Lemma dispatchOne_keeps_absent fd ev w :
  neverRegisters invoke fd →
  registry w !! fd = None →
  registry (after (dispatchOne invoke ev w)) !! fd = None.
Proof.
  intros Hnr Hm. unfold dispatchOne.
  pose proof (dispatchCategories_keeps_absent fd (data_fd ev) (events ev)
                allEventTypes w Hnr Hm) as Hc.
  destruct (dispatchCategories _ _ _ _ _) as [[|] w1|e w1]; [|done|done].
  destruct (_ =? 0); [done|].
  pose proof (removeDescriptor_keeps_absent fd (data_fd ev) w1 Hc) as Hr.
  by destruct (removeDescriptor _ _) as [[] w2|e w2].
Qed.

Lemma dispatchEvents_keeps_absent fd batch w :
  neverRegisters invoke fd →
  registry w !! fd = None →
  registry (after (dispatchEvents invoke batch w)) !! fd = None.
Proof.
  intros Hnr. revert w. induction batch as [|ev rest IH]; intros w Hm; [done|].
  cbn. pose proof (dispatchOne_keeps_absent fd ev w Hnr Hm) as H1.
  destruct (dispatchOne invoke ev w) as [[|] w1|e w1]; [by apply IH|done|done].
Qed.

(** Lines 59-61: a pair whose dispatch is completed and whose bits
    include [EPOLLRDHUP] or [EPOLLHUP] has its descriptor removed. *)
Lemma dispatchOne_hangup ev w w' :
  dispatchOne invoke ev w = Done Continue w' →
  hangupReported (events ev) = true →
  registry w' !! data_fd ev = None.
Proof.
  unfold dispatchOne, hangupReported.
  destruct (dispatchCategories _ _ _ _ _) as [[|] w1|e w1]; [|done|done].
  destruct (_ =? 0); [done|]. intros Hd _.
  pose proof (removeDescriptor_absent (data_fd ev) w1) as Hr.
  destruct (removeDescriptor _ _) as [[] w2|e w2]; [|done].
  by injection Hd as <-.
Qed.

Lemma dispatchEvents_hangup batch ev w w' :
  dispatchEvents invoke batch w = Done Continue w' →
  ev ∈ batch →
  hangupReported (events ev) = true →
  neverRegisters invoke (data_fd ev) →
  registry w' !! data_fd ev = None.
Proof.
  intros Hd Hin Hh Hnr. revert w Hd.
  induction Hin as [ev rest|ev ev' rest Hin IH]; intros w Hd; cbn in Hd.
  - destruct (dispatchOne invoke ev w) as [[|] w1|e w1] eqn:E1; [|done|done].
    pose proof (dispatchOne_hangup ev w w1 E1 Hh) as Habs.
    pose proof (dispatchEvents_keeps_absent (data_fd ev) rest w1 Hnr Habs) as Hk.
    by rewrite Hd in Hk.
  - destruct (dispatchOne invoke ev' w) as [[|] w1|e w1]; [|done|done].
    by apply (IH Hh Hnr w1).
Qed.

(** As long as the guard of line 48 does not fire, the loops of the
    source do what the specification describes. *)
Lemma dispatchCategories_agrees fd evs evts w w' :
  (∀ evt, evt ∈ evts → evt ∈ allEventTypes) →
  dispatchCategories invoke fd evs evts w = Done Continue w' →
  spec_dispatchCategories invoke fd evs evts w = Done tt w'.
Proof.
  revert w. induction evts as [|evt rest IH]; intros w Hsub Hd; cbn in *.
  { by injection Hd as <-. }
  assert (He : evt ∈ allEventTypes) by (apply Hsub; left).
  assert (Hrest : ∀ e, e ∈ rest → e ∈ allEventTypes) by (intros e ?; apply Hsub; by right).
  destruct (registry w !! fd) as [md|] eqn:Hm; [|done].
  destruct (land_category evs evt He) as [Hl|Hl]; rewrite Hl in Hd.
  - rewrite Hl. cbn. rewrite hasHandler_zero in Hd. by apply IH.
  - rewrite Hl. assert ((evt =? 0) = false) as ->.
    { rewrite elem_of_allEventTypes in He.
      by destruct He as [-> | [-> | [-> | [-> | [-> | ->]]]]]. }
    destruct (hasHandler_getHandler md evt He) as (h & Hg & Hh).
    rewrite Hg, Hh in *. destruct h as [cb|]; cbn in Hd.
    + destruct (invoke cb fd _) as [[] w1|e w1]; [by apply IH|done].
    + by apply IH.
Qed.

Lemma dispatchEvents_agrees batch w w' :
  dispatchEvents invoke batch w = Done Continue w' →
  spec_dispatchEvents invoke batch w = Done tt w'.
Proof.
  revert w. induction batch as [|ev rest IH]; intros w Hd;
    cbn [dispatchEvents spec_dispatchEvents] in *.
  { by injection Hd as <-. }
  unfold dispatchOne in Hd.
  destruct (dispatchCategories _ _ _ _ _) as [[|] w1|e w1] eqn:Hc; [|done|done].
  rewrite (dispatchCategories_agrees _ _ _ _ _ (λ _ H, H) Hc).
  unfold hangupReported. destruct (_ =? 0); cbn [negb]; [by apply IH|].
  destruct (removeDescriptor _ _) as [[] w2|e w2]; [by apply IH|done].
Qed.

(** The result of the loops depends on the callbacks only through the
    invocations listed by [callsOf]. *)
Lemma dispatchCategories_ext (invoke' : Callbacks Callback K) fd evs evts w :
  Forall (λ c, invoke' c.1.1 c.1.2 c.2 = invoke c.1.1 c.1.2 c.2)
    (callsOfCategories invoke fd evs evts w) →
  dispatchCategories invoke' fd evs evts w = dispatchCategories invoke fd evs evts w.
Proof.
  revert w. induction evts as [|evt rest IH]; intros w Hall; [done|]. cbn in *.
  destruct (registry w !! fd) as [md|]; [|done].
  destruct (hasHandler md (Z.land evs evt)); [|by apply IH].
  destruct (getHandler md (Z.land evs evt)) as [e|[cb|]]; [done| |done].
  apply Forall_cons in Hall as [Hc Hall]. cbn in Hc. rewrite Hc.
  destruct (invoke cb fd _) as [[] w1|e w1]; [by apply IH|done].
Qed.

Lemma dispatchEvents_ext (invoke' : Callbacks Callback K) batch w :
  Forall (λ c, invoke' c.1.1 c.1.2 c.2 = invoke c.1.1 c.1.2 c.2)
    (callsOf invoke batch w) →
  dispatchEvents invoke' batch w = dispatchEvents invoke batch w.
Proof.
  revert w. induction batch as [|ev rest IH]; intros w Hall; [done|].
  cbn [callsOf dispatchEvents] in *. apply Forall_app in Hall as [Hc Hall].
  assert (H1 : dispatchOne invoke' ev w = dispatchOne invoke ev w).
  { unfold dispatchOne. by rewrite (dispatchCategories_ext invoke' _ _ _ _ Hc). }
  rewrite H1. destruct (dispatchOne invoke ev w) as [[|] w1|e w1]; [by apply IH|done|done].
Qed.

Lemma dispatchCategories_keeps_absent_here fd fd' evs evts w :
  Forall (keepsAbsent invoke fd) (callsOfCategories invoke fd' evs evts w) →
  registry w !! fd = None →
  registry (after (dispatchCategories invoke fd' evs evts w)) !! fd = None.
Proof.
  revert w. induction evts as [|evt rest IH]; intros w Hall Hm; [done|]. cbn in *.
  destruct (registry w !! fd') as [md|]; [|done].
  destruct (hasHandler md (Z.land evs evt)); [|by apply IH].
  destruct (getHandler md (Z.land evs evt)) as [e|[cb|]]; [done| |done].
  apply Forall_cons in Hall as [Hc Hall]. specialize (Hc Hm). cbn in Hc.
  destruct (invoke cb fd' _) as [[] w1|e w1]; [by apply IH|done].
Qed.

Lemma dispatchEvents_keeps_absent_here fd batch w :
  Forall (keepsAbsent invoke fd) (callsOf invoke batch w) →
  registry w !! fd = None →
  registry (after (dispatchEvents invoke batch w)) !! fd = None.
Proof.
  revert w. induction batch as [|ev rest IH]; intros w Hall Hm; [done|].
  cbn [callsOf dispatchEvents] in *. apply Forall_app in Hall as [Hc Hall].
  pose proof (dispatchCategories_keeps_absent_here fd (data_fd ev) (events ev)
                allEventTypes w Hc Hm) as Habs.
  unfold dispatchOne in *.
  destruct (dispatchCategories _ _ _ _ _) as [[|] w1|e w1]; [|done|done].
  cbn [after] in Habs. destruct (_ =? 0); [by apply IH|].
  pose proof (removeDescriptor_keeps_absent fd (data_fd ev) w1 Habs) as Hr.
  destruct (removeDescriptor _ _) as [[] w2|e w2]; [by apply IH|done].
Qed.

(** The guard of line 48 fires only for a descriptor that is gone. *)
Lemma dispatchCategories_return_absent fd evs evts w w' :
  dispatchCategories invoke fd evs evts w = Done Return w' →
  registry w' !! fd = None.
Proof.
  revert w. induction evts as [|evt rest IH]; intros w Hd; [done|]. cbn in Hd.
  destruct (registry w !! fd) as [md|] eqn:Hm; [|by injection Hd as <-].
  destruct (hasHandler md (Z.land evs evt)); [|by eapply IH].
  destruct (getHandler md (Z.land evs evt)) as [e|[cb|]]; [done| |done].
  destruct (invoke cb fd _) as [[] w1|e w1]; [by eapply IH|done].
Qed.

Lemma dispatchOne_returned_hangup ev w fl w' :
  dispatchOne invoke ev w = Done fl w' →
  hangupReported (events ev) = true →
  registry w' !! data_fd ev = None.
Proof.
  destruct fl; [apply dispatchOne_hangup|].
  unfold dispatchOne. intros Hd _.
  destruct (dispatchCategories _ _ _ _ _) as [[|] w1|e w1] eqn:Hc; [|
    injection Hd as <-; by eapply dispatchCategories_return_absent|done].
  destruct (_ =? 0); [done|]. by destruct (removeDescriptor _ _) as [[] w2|e w2].
Qed.

Lemma dispatchEvents_app pre l w w1 :
  dispatchEvents invoke pre w = Done Continue w1 →
  dispatchEvents invoke (pre ++ l) w = dispatchEvents invoke l w1.
Proof.
  revert w. induction pre as [|x pre IH]; intros w Hd; cbn [app dispatchEvents] in *.
  - by injection Hd as ->.
  - destruct (dispatchOne invoke x w) as [[|] w2|e w2]; [by apply IH|done|done].
Qed.

Lemma after_waitForEvents timeout w :
  after (waitForEvents invoke timeout w) =
    after (dispatchEvents invoke (reportedBatch timeout w) (enterWait timeout w)).
Proof.
  rewrite waitForEvents_unfold. by destruct (dispatchEvents _ _ _) as [[] w1|e w1].
Qed.

(** C1, amended — take a pair of the reported batch whose bits include a
    hang-up or peer-half-closed bit. If the dispatch loop reaches the
    pair ([pre] is dispatched to its end) and no callback throws while
    the pair itself is dispatched, its descriptor is absent from the
    registry as soon as the pair is processed, whether or not a hang-up
    callback is registered for it: [removeDescriptor] is called on the
    reported bits alone. It is still absent after the wait-cycle,
    however the cycle ends, unless one of the callbacks invoked for the
    later pairs of this cycle registers it again. *)
Theorem hangup_cleanup timeout w pre ev rest w1 fl w2 :
  reportedBatch timeout w = pre ++ ev :: rest →
  dispatchEvents invoke pre (enterWait timeout w) = Done Continue w1 →
  dispatchOne invoke ev w1 = Done fl w2 →
  hangupReported (events ev) = true →
  (fl = Continue → Forall (keepsAbsent invoke (data_fd ev)) (callsOf invoke rest w2)) →
  registry w2 !! data_fd ev = None ∧
  registry (after (waitForEvents invoke timeout w)) !! data_fd ev = None.
Proof.
  intros Hb Hpre Hone Hh Hlater.
  pose proof (dispatchOne_returned_hangup ev w1 fl w2 Hone Hh) as Habs.
  split; [exact Habs|].
  rewrite after_waitForEvents, Hb, (dispatchEvents_app _ _ _ _ Hpre).
  cbn [dispatchEvents]. rewrite Hone. destruct fl; [|exact Habs].
  by apply dispatchEvents_keeps_absent_here; [apply Hlater|].
Qed.

(** C9 — once [fd] has been removed, by [removeDescriptor] or by the
    clean-up of the dispatch loop, [addDescriptor(fd)] creates an entry
    whose [isInitialized] flag is false, and the next subscription
    issued for [fd], by [addEventHandler] or [removeEventHandler], is an
    [EPOLL_CTL_ADD] call (not a modify); the flag becomes true if that
    call succeeds. *)
Theorem readded_descriptor_subscribes_afresh fd w w1 :
  (w1 = after (removeDescriptor fd w) ∨
   ∃ evs, hangupReported evs = true ∧
          dispatchOne invoke {| events := evs; data_fd := fd |} w = Done Continue w1) →
  registry w1 !! fd = None ∧
  (∃ md, registry (after (addDescriptor fd w1)) !! fd = Some md ∧
         isInitialized md = false) ∧
  (∀ eventType h, ∃ ev r md',
     trace (after (addEventHandler fd eventType h (after (addDescriptor fd w1)))) =
       trace (after (addDescriptor fd w1)) ++
         [SysEpollCtl (_epollFd (reactor w1)) EPOLL_CTL_ADD fd ev r] ∧
     registry (after (addEventHandler fd eventType h (after (addDescriptor fd w1)))) !! fd
       = Some md' ∧
     isInitialized md' = negb (r =? -1)) ∧
  (∀ eventType, ∃ ev r md',
     trace (after (removeEventHandler fd eventType (after (addDescriptor fd w1)))) =
       trace (after (addDescriptor fd w1)) ++
         [SysEpollCtl (_epollFd (reactor w1)) EPOLL_CTL_ADD fd ev r] ∧
     registry (after (removeEventHandler fd eventType (after (addDescriptor fd w1)))) !! fd
       = Some md' ∧
     isInitialized md' = negb (r =? -1)).
Proof.
  intros Hrem.
  assert (Habs : registry w1 !! fd = None).
  { destruct Hrem as [-> | (evs & Hh & Hd)].
    - apply removeDescriptor_absent.
    - apply (dispatchOne_hangup _ _ _ Hd Hh). }
  pose proof (addDescriptor_fresh fd w1 Habs) as Hnew.
  destruct (addDescriptor_reactor_fields fd w1) as [Hep _].
  set (w2 := after (addDescriptor fd w1)) in *.
  assert (Hcore : ∀ md1, isInitialized md1 = false → monitoredFd md1 = fd →
    ∃ ev r md',
      trace (after (_reloadEventHandlers fd md1
                      (setRegistry (<[fd := md1]> (registry w2)) w2))) =
        trace w2 ++ [SysEpollCtl (_epollFd (reactor w1)) EPOLL_CTL_ADD fd ev r] ∧
      registry (after (_reloadEventHandlers fd md1
                         (setRegistry (<[fd := md1]> (registry w2)) w2))) !! fd = Some md' ∧
      isInitialized md' = negb (r =? -1)).
  { intros md1 Hi Hfd.
    destruct (update_then_reload fd md1 w2) as (Ht & Hl & _).
    eexists _, _, _. split; [|split; [exact Hl|]].
    - rewrite Ht. unfold subscriptionEvent, subscriptionOp. by rewrite Hi, Hfd, Hep.
    - cbn. by rewrite Hi. }
  split; [exact Habs|]. split; [by exists (newDescriptor fd)|]. split.
  - intros eventType h.
    rewrite (addEventHandler_registered _ _ _ _ _ Hnew).
    apply Hcore.
    + by rewrite (proj1 (installHandlers_frame _ _ _)).
    + by rewrite (proj2 (installHandlers_frame _ _ _)).
  - intros eventType.
    rewrite (removeEventHandler_registered _ _ _ _ Hnew).
    rewrite clearHandlers_installHandlers.
    apply Hcore.
    + by rewrite (proj1 (installHandlers_frame _ _ _)).
    + by rewrite (proj2 (installHandlers_frame _ _ _)).
Qed.

End DispatchFacts.

(** ** Unrecognized event types *)

(** C10 — for an [eventType] that is not one of the six single flags
    (zero, a union of flags, any other value) [hasHandler] answers false
    whatever the slots hold, and [setHandler] leaves the descriptor, and
    so all six slots, unchanged. *)
Theorem unrecognized_eventType_ignored {Callback} (md : MonitoredDescriptor Callback)
    (eventType : Z) (h : handler Callback) :
  eventType ∉ allEventTypes →
  hasHandler md eventType = false ∧
  setHandler md eventType h = md ∧
  slots (setHandler md eventType h) = slots md.
Proof.
  rewrite elem_of_allEventTypes. intros Hn.
  assert (Heq : setHandler md eventType h = md ∧ hasHandler md eventType = false).
  { unfold setHandler, hasHandler. destruct md.
    destruct (Z.eqb_spec eventType EPOLLIN); [tauto|].
    destruct (Z.eqb_spec eventType EPOLLOUT); [tauto|].
    destruct (Z.eqb_spec eventType EPOLLRDHUP); [tauto|].
    destruct (Z.eqb_spec eventType EPOLLPRI); [tauto|].
    destruct (Z.eqb_spec eventType EPOLLERR); [tauto|].
    destruct (Z.eqb_spec eventType EPOLLHUP); [tauto|].
    done. }
  destruct Heq as [Hs Hh]. by rewrite Hs.
Qed.

(** * Concrete runs *)

Import Demo.

Lemma run_neverRegisters fd : neverRegisters run fd.
Proof.
  intros cb arg w Hm. destruct cb; [exact Hm|].
  apply removeDescriptor_keeps_absent, Hm.
Defined.

(** Descriptor 7 is reported with [EPOLLHUP] and has no hang-up
    callback; the wait-cycle removes it all the same. *)
Lemma bare_descriptor_removed_on_hangup : ¬ hangupCleanupClaim run (-1) hungup7.
Proof.
  intros Hclaim.
  specialize (Hclaim {| events := EPOLLHUP; data_fd := 7 |}
    {| isInitialized := true; monitoredFd := 7;
       IN_handler := Some record; OUT_handler := None; RDHUP_handler := None;
       PRI_handler := None; ERR_handler := None; HUP_handler := None |}).
  assert (Hin : {| events := EPOLLHUP; data_fd := 7 |} ∈ reportedBatch (-1) hungup7)
    by (vm_compute; left).
  specialize (Hclaim Hin eq_refl eq_refl).
  vm_compute in Hclaim. destruct Hclaim as [md Hmd]. discriminate Hmd.
Qed.

Lemma hangup_cleanup_witness :
  registry cut346 !! 3 ≠ None ∧
  returned (dispatchOne run {| events := Z.lor EPOLLIN EPOLLHUP; data_fd := 3 |}
              (enterWait (-1) cut346)) = true ∧
  registry (after (waitForEvents run (-1) cut346)) !! 3 = None.
Proof.
  split; [discriminate|]. split; [reflexivity|].
  refine (proj2 (hangup_cleanup run (-1) cut346 []
           {| events := Z.lor EPOLLIN EPOLLHUP; data_fd := 3 |}
           [{| events := EPOLLIN; data_fd := 4 |}; {| events := EPOLLIN; data_fd := 6 |}]
           (enterWait (-1) cut346) Continue
           (after (dispatchOne run {| events := Z.lor EPOLLIN EPOLLHUP; data_fd := 3 |}
                     (enterWait (-1) cut346)))
           eq_refl eq_refl eq_refl eq_refl _)).
  intros _. apply Forall_forall. intros [[cb arg] w0] _ Hm.
  exact (run_neverRegisters _ cb arg w0 Hm).
Defined.

(** C2 — in the batch [(3, EPOLLIN); (4, EPOLLIN)] the readable handler
    of descriptor 3 removes descriptor 3; the loop then returns from
    [waitForEvents] at the next membership check, and the readable
    handler of descriptor 4, registered and reported, is never invoked,
    whereas the loop described by the specification goes on to
    descriptor 4. *)
Theorem early_return_abandons_batch :
  reportedBatch (-1) pair34 =
    [{| events := EPOLLIN; data_fd := 3 |}; {| events := EPOLLIN; data_fd := 4 |}] ∧
  (∃ md, registry pair34 !! 4 = Some md ∧ hasHandler md EPOLLIN = true) ∧
  returned (waitForEvents run (-1) pair34) = true ∧
  invocations (after (waitForEvents run (-1) pair34)) = [(3, EPOLLIN)] ∧
  registered (after (waitForEvents run (-1) pair34)) = [4] ∧
  invocations (after (spec_dispatchEvents run (reportedBatch (-1) pair34)
                        (enterWait (-1) pair34))) = [(3, EPOLLIN); (4, EPOLLIN)].
Proof.
  split; [reflexivity|]. split.
  - eexists. split; reflexivity.
  - vm_compute. done.
Qed.

(** ** Scenarios of the specification *)

(** Level-triggered reactor, descriptor 7 with a readable handler, the
    kernel reports it readable: one invocation with argument 7, and
    descriptor 7 is still registered. *)
Example scenario_readable :
  let w := script [waitForEvents run (-1)]
             (script [addDescriptor 7; addEventHandler 7 EPOLLIN (Some record)]
                (boot false [] [[{| events := EPOLLIN; data_fd := 7 |}]])) in
  invocations w = [(7, EPOLLIN)] ∧ registered w = [7].
Proof. vm_compute. done. Qed.

(** Edge-triggered reactor: adding descriptor 9 switches it to
    non-blocking mode. *)
Example scenario_nonblocking :
  trace (script [addDescriptor 9] (boot true [] [])) =
    [SysEpollCreate 0 3; SysGetFl 9 2; SysSetFl 9 (Z.lor 2 O_NONBLOCK) 0].
Proof. reflexivity. Qed.

(** Readable and hang-up handlers on descriptor 3, both bits reported:
    the readable handler runs, then the hang-up handler, then the
    descriptor is removed. *)
Example scenario_hangup :
  let w := after (waitForEvents run (-1) scenario3) in
  invocations w = [(3, EPOLLIN); (3, EPOLLHUP)] ∧ registered w = [] ∧
  last (trace w) = Some (SysEpollCtl 3 EPOLL_CTL_DEL 3 {| events := 0; data_fd := 3 |} 0).
Proof. vm_compute. done. Qed.

(** A failed kernel call does not undo the slot updates made before it:
    the readable handler of the closed descriptor 7 stays installed. *)
Example handlers_kept_after_failed_add :
  let entry0 := registry closed7 !! 7 in
  let entry1 := registry (after (addEventHandler 7 EPOLLIN (Some record) closed7)) !! 7 in
  returned (addEventHandler 7 EPOLLIN (Some record) closed7) = false ∧
  (λ md, hasHandler md EPOLLIN) <$> entry0 = Some false ∧
  (λ md, hasHandler md EPOLLIN) <$> entry1 = Some true ∧
  isInitialized <$> entry1 = Some false.
Proof. vm_compute. done. Qed.

(** Passing the empty function to [addEventHandler] empties the slots
    of the mask. *)
Example empty_function_clears :
  (λ md, hasHandler md EPOLLIN) <$>
    registry (after (addEventHandler 7 EPOLLIN None reading7)) !! 7 = Some false.
Proof. reflexivity. Qed.

(** ** Instances of the theorems *)

(** The kernel rejects the add for the closed descriptor 7: the call
    throws, the readable slot stays written, the flag stays false. *)
Lemma kernel_failure_witness :
  ∃ what w' md',
    addEventHandler 7 EPOLLIN (Some record) closed7 = Threw (runtime_error what) w' ∧
    registry w' = <[7 := installHandlers EPOLLIN (Some record) (newDescriptor 7)]>
                    (registry closed7) ∧
    registry w' !! 7 = Some md' ∧
    isInitialized md' = isInitialized (newDescriptor (Callback := callback) 7) ∧
    (EPOLL_CTL_ADD = EPOLL_CTL_ADD → isInitialized md' = false).
Proof.
  apply (proj1 (kernel_failure_keeps_registry 7 EPOLLIN (Some record)
                  (newDescriptor 7) closed7 3 EPOLL_CTL_ADD 7
                  {| events := EPOLLIN; data_fd := 7 |} eq_refl)).
  reflexivity.
Defined.

Lemma addEventHandler_unregistered_witness :
  registry bare7 !! 9 = None ∧
  ∃ what,
    addEventHandler 9 EPOLLIN (Some record) bare7 = Threw (runtime_error what) bare7 ∧
    registry (after (addEventHandler 9 EPOLLIN (Some record) bare7)) = registry bare7 ∧
    kernel (after (addEventHandler 9 EPOLLIN (Some record) bare7)) = kernel bare7 ∧
    trace (after (addEventHandler 9 EPOLLIN (Some record) bare7)) = trace bare7.
Proof.
  split; [reflexivity|].
  apply (addEventHandler_unregistered 9 EPOLLIN (Some record) bare7). reflexivity.
Defined.

(** Descriptor 7 is subscribed for reading; adding a writable handler
    issues a modify with the mask of both categories. *)
Lemma subscription_recomputed_witness :
  ∃ md' r,
    registry (after (addEventHandler 7 EPOLLOUT (Some record) reading7)) !! 7 = Some md' ∧
    trace (after (addEventHandler 7 EPOLLOUT (Some record) reading7)) =
      trace reading7 ++
        [SysEpollCtl 3 EPOLL_CTL_MOD 7
           {| events := spec_subscriptionMask false md'; data_fd := 7 |} r] ∧
    (r ≠ -1 → isInitialized md' = true).
Proof.
  exact (proj1 (proj2 (subscription_recomputed 7 EPOLLOUT (Some record)
    {| isInitialized := true; monitoredFd := 7;
       IN_handler := Some record; OUT_handler := None; RDHUP_handler := None;
       PRI_handler := None; ERR_handler := None; HUP_handler := None |}
    reading7 eq_refl))).
Defined.

Lemma addDescriptor_idempotent_witness :
  occurrences 7 (registry (repeatAddDescriptor 3 7 reading7)) = 1%nat ∧
  registry (after (addDescriptor 7 reading7)) = registry reading7.
Proof.
  split.
  - apply (proj1 (addDescriptor_idempotent 7 reading7) 3%nat). lia.
  - apply (proj2 (addDescriptor_idempotent 7 reading7)
      {| isInitialized := true; monitoredFd := 7;
         IN_handler := Some record; OUT_handler := None; RDHUP_handler := None;
         PRI_handler := None; ERR_handler := None; HUP_handler := None |}).
    reflexivity.
Defined.

Lemma addEventHandler_installs_witness :
  ∃ md',
    registry (after (addEventHandler 7 (Z.lor EPOLLIN EPOLLOUT) (Some record) bare7)) !! 7
      = Some md' ∧
    hasHandler md' EPOLLIN = true ∧ hasHandler md' EPOLLOUT = true ∧
    getHandler md' EPOLLIN = inr (Some record) ∧
    getHandler md' EPOLLOUT = inr (Some record).
Proof.
  apply (proj1 (addEventHandler_installs 7 record (newDescriptor 7) bare7 eq_refl)).
Defined.

Lemma removeEventHandler_clears_witness :
  ∃ md',
    registry (after (removeEventHandler 7 EPOLLIN
       (after (addEventHandler 7 (Z.lor EPOLLIN EPOLLOUT) (Some record) bare7)))) !! 7
      = Some md' ∧
    hasHandler md' EPOLLIN = false ∧ hasHandler md' EPOLLOUT = true.
Proof.
  apply (proj2 (removeEventHandler_clears 7 (newDescriptor 7) bare7 eq_refl) record).
Defined.

(** Descriptor 7 was subscribed (flag true); after removal and re-adding
    the next subscription is an add again. *)
Lemma readded_descriptor_witness :
  (∃ md, registry reading7 !! 7 = Some md ∧ isInitialized md = true) ∧
  ∃ ev r md',
    trace (after (addEventHandler 7 EPOLLIN (Some record)
             (after (addDescriptor 7 (after (removeDescriptor 7 reading7)))))) =
      trace (after (addDescriptor 7 (after (removeDescriptor 7 reading7)))) ++
        [SysEpollCtl 3 EPOLL_CTL_ADD 7 ev r] ∧
    registry (after (addEventHandler 7 EPOLLIN (Some record)
                (after (addDescriptor 7 (after (removeDescriptor 7 reading7)))))) !! 7
      = Some md' ∧
    isInitialized md' = negb (r =? -1).
Proof.
  split; [eexists; split; reflexivity|].
  exact (proj1 (proj2 (proj2
    (readded_descriptor_subscribes_afresh run 7 reading7
       (after (removeDescriptor 7 reading7)) (or_introl eq_refl))))
    EPOLLIN (Some record)).
Defined.

Lemma unrecognized_eventType_witness :
  (Z.lor EPOLLIN EPOLLOUT ∉ allEventTypes) ∧
  hasHandler full (Z.lor EPOLLIN EPOLLOUT) = false ∧
  setHandler full (Z.lor EPOLLIN EPOLLOUT) None = full ∧
  slots (setHandler full (Z.lor EPOLLIN EPOLLOUT) None) = slots full.
Proof.
  assert (Hn : Z.lor EPOLLIN EPOLLOUT ∉ allEventTypes).
  { rewrite elem_of_allEventTypes. intros [H|[H|[H|[H|[H|H]]]]]; discriminate H. }
  split; [exact Hn|].
  apply (unrecognized_eventType_ignored full (Z.lor EPOLLIN EPOLLOUT) None Hn).
Defined.

(** * Further properties of the code *)

(** ** MonitoredDescriptor *)

Section SlotFacts.
Context {Callback : Type}.
Implicit Types (md : MonitoredDescriptor Callback) (h : handler Callback).

Lemma hasHandler_true_category md x :
  hasHandler md x = true → x ∈ allEventTypes.
Proof.
  rewrite elem_of_allEventTypes. unfold hasHandler.
  destruct (Z.eqb_spec x EPOLLIN); [tauto|].
  destruct (Z.eqb_spec x EPOLLOUT); [tauto|].
  destruct (Z.eqb_spec x EPOLLRDHUP); [tauto|].
  destruct (Z.eqb_spec x EPOLLPRI); [tauto|].
  destruct (Z.eqb_spec x EPOLLERR); [tauto|].
  destruct (Z.eqb_spec x EPOLLHUP); [tauto|done].
Qed.

Lemma hasHandler_true_callable md x :
  hasHandler md x = true → ∃ cb, getHandler md x = inr (Some cb).
Proof.
  intros Hh. pose proof (hasHandler_true_category md x Hh) as He.
  destruct (hasHandler_getHandler md x He) as (h & Hg & Hn).
  rewrite Hn in Hh. destruct h as [cb|]; [eauto|done].
Qed.

(** X1 — [setHandler] followed by [getHandler] or [hasHandler]: the written
    slot holds the new function, the five other slots and the two other
    fields are as before. *)
Theorem setHandler_then_getHandler md evt evt' h :
  evt ∈ allEventTypes → evt' ∈ allEventTypes →
  getHandler (setHandler md evt h) evt'
    = (if decide (evt' = evt) then inr h else getHandler md evt') ∧
  hasHandler (setHandler md evt h) evt'
    = (if decide (evt' = evt) then nonnull h else hasHandler md evt') ∧
  isInitialized (setHandler md evt h) = isInitialized md ∧
  monitoredFd (setHandler md evt h) = monitoredFd md.
Proof.
  rewrite !elem_of_allEventTypes.
  intros [-> | [-> | [-> | [-> | [-> | ->]]]]] [-> | [-> | [-> | [-> | [-> | ->]]]]];
    destruct md; repeat split; reflexivity.
Qed.

(** X2 — [getHandler] throws for every value that is not one of the six
    flags and returns the slot otherwise; when [hasHandler] answers true
    the value is one of the six flags and [getHandler] returns a
    non-empty function. *)
Theorem getHandler_domain md x :
  (x ∉ allEventTypes → ∃ what, getHandler md x = inl (runtime_error what)) ∧
  (x ∈ allEventTypes → ∃ h, getHandler md x = inr h ∧ hasHandler md x = nonnull h) ∧
  (hasHandler md x = true ↔ ∃ cb, getHandler md x = inr (Some cb)).
Proof.
  split; [|split; [apply hasHandler_getHandler|split; [apply hasHandler_true_callable|]]].
  - rewrite elem_of_allEventTypes. intros Hn. unfold getHandler.
    destruct (Z.eqb_spec x EPOLLIN); [tauto|].
    destruct (Z.eqb_spec x EPOLLOUT); [tauto|].
    destruct (Z.eqb_spec x EPOLLRDHUP); [tauto|].
    destruct (Z.eqb_spec x EPOLLPRI); [tauto|].
    destruct (Z.eqb_spec x EPOLLERR); [tauto|].
    destruct (Z.eqb_spec x EPOLLHUP); [tauto|eauto].
  - intros [cb Hg].
    destruct (decide (x ∈ allEventTypes)) as [He|Hn].
    + destruct (hasHandler_getHandler md x He) as (h & Hg' & ->).
      rewrite Hg in Hg'. by injection Hg' as <-.
    + exfalso. revert Hn Hg. rewrite elem_of_allEventTypes. unfold getHandler.
      destruct (Z.eqb_spec x EPOLLIN); [tauto|].
      destruct (Z.eqb_spec x EPOLLOUT); [tauto|].
      destruct (Z.eqb_spec x EPOLLRDHUP); [tauto|].
      destruct (Z.eqb_spec x EPOLLPRI); [tauto|].
      destruct (Z.eqb_spec x EPOLLERR); [tauto|].
      destruct (Z.eqb_spec x EPOLLHUP); [tauto|done].
Qed.

Lemma land_allCategories m evt :
  evt ∈ allEventTypes → Z.land (Z.land m allCategories) evt = Z.land m evt.
Proof.
  intros He. rewrite <- Z.land_assoc. f_equal.
  rewrite elem_of_allEventTypes in He.
  by destruct He as [-> | [-> | [-> | [-> | [-> | ->]]]]].
Qed.

(** X3 — Only the six category bits of the mask count in the loops of
    [addEventHandler] and [removeEventHandler]; a mask without any of
    them leaves the descriptor as it is. *)
Theorem mask_only_categories_count m h md :
  installHandlers m h md = installHandlers (Z.land m allCategories) h md ∧
  clearHandlers m md = clearHandlers (Z.land m allCategories) md ∧
  (Z.land m allCategories = 0 → installHandlers m h md = md ∧ clearHandlers m md = md).
Proof.
  assert (Hi : ∀ h0, installHandlers m h0 md = installHandlers (Z.land m allCategories) h0 md).
  { intros h0. unfold installHandlers, allEventTypes. cbn [fold_left].
    rewrite !land_allCategories by (rewrite elem_of_allEventTypes; tauto). done. }
  split; [apply Hi|]. split.
  - by rewrite !clearHandlers_installHandlers.
  - intros Hz. rewrite clearHandlers_installHandlers, !Hi, Hz. by destruct md.
Qed.

(** X4 — The computed mask encodes the handler set: a category bit is set
    exactly when the category has a handler, [EPOLLET] exactly in
    edge-triggered mode, no other bit is set, and the value fits the
    32-bit [events] field. *)
Theorem resultingEvents_bits (edge : bool) md :
  (∀ evt, evt ∈ allEventTypes → selects (resultingEvents edge md) evt = hasHandler md evt) ∧
  selects (resultingEvents edge md) EPOLLET = edge ∧
  Z.land (resultingEvents edge md) (Z.lnot (Z.lor allCategories EPOLLET)) = 0 ∧
  0 ≤ resultingEvents edge md < 2 ^ 32.
Proof.
  destruct md as [i fd [?|] [?|] [?|] [?|] [?|] [?|]], edge;
    (split; [intros evt; rewrite elem_of_allEventTypes;
             intros [-> | [-> | [-> | [-> | [-> | ->]]]]]; reflexivity|]);
    (split; [reflexivity|]); (split; [reflexivity|]); vm_compute; split; congruence.
Qed.

End SlotFacts.

(** ** Descriptors and handlers of the reactor *)

Section MoreReactorFacts.
Context {Callback K : Type} `{!Kernel K}.
Implicit Types (w : World Callback K) (md : MonitoredDescriptor Callback).
Implicit Types (h : handler Callback) (fd : Z).

(** X5 — [removeDescriptor] never throws. On an unregistered descriptor it
    does nothing at all. On a registered one it makes one
    [EPOLL_CTL_DEL] call, whose result is not looked at, and erases the
    entry; the other entries stay; removing again changes nothing. *)
Theorem removeDescriptor_best_effort fd w :
  (registry w !! fd = None → removeDescriptor fd w = Done tt w) ∧
  (is_Some (registry w !! fd) →
   ∃ w', removeDescriptor fd w = Done tt w' ∧
     trace w' = trace w ++
       [SysEpollCtl (_epollFd (reactor w)) EPOLL_CTL_DEL fd {| events := 0; data_fd := fd |}
          (epoll_ctl (_epollFd (reactor w)) EPOLL_CTL_DEL fd
             {| events := 0; data_fd := fd |} (kernel w)).2] ∧
     registry w' = delete fd (registry w)) ∧
  (∀ fd', fd' ≠ fd →
     registry (after (removeDescriptor fd w)) !! fd' = registry w !! fd') ∧
  removeDescriptor fd (after (removeDescriptor fd w))
    = Done tt (after (removeDescriptor fd w)).
Proof.
  split; [|split; [|split]].
  - intros Hm. unfold removeDescriptor. by rewrite Hm.
  - intros [md Hm]. unfold removeDescriptor, _epollCtlDelete. rewrite Hm.
    destruct (epoll_ctl _ _ _ _ _) as [k r]. eexists. split; [done|]. by split.
  - intros fd' Hne. destruct (removeDescriptor_done fd w) as (w' & -> & Hr & _).
    cbn. by rewrite Hr, lookup_delete_ne.
  - pose proof (removeDescriptor_absent fd w) as Habs.
    unfold removeDescriptor at 1. by rewrite Habs.
Qed.

(** X6 — [removeEventHandler] on a descriptor that is not registered throws
    [std::out_of_range] (from [unordered_map::at]) before any kernel
    call; nothing changes. *)
Theorem removeEventHandler_unregistered fd eventType w :
  registry w !! fd = None →
  removeEventHandler fd eventType w = Threw out_of_range w.
Proof. intros Hm. unfold removeEventHandler. by rewrite Hm. Qed.

(** X7 — In level-triggered mode [addDescriptor] makes no kernel call and
    returns. In edge-triggered mode it reads the file status flags,
    writes them back with [O_NONBLOCK] added, and throws exactly when
    the write returns -1; the read is not checked, and the descriptor is
    registered even when the call throws. *)
Theorem addDescriptor_nonblocking fd w :
  is_Some (registry (after (addDescriptor fd w)) !! fd) ∧
  (_isEdgeTriggered (reactor w) = false →
   ∃ w', addDescriptor fd w = Done tt w' ∧ trace w' = trace w ∧ kernel w' = kernel w) ∧
  (_isEdgeTriggered (reactor w) = true →
   let fl := (fcntl_getfl fd (kernel w)).2 in
   let r := (fcntl_setfl fd (Z.lor fl O_NONBLOCK) (fcntl_getfl fd (kernel w)).1).2 in
   trace (after (addDescriptor fd w))
     = trace w ++ [SysGetFl fd fl; SysSetFl fd (Z.lor fl O_NONBLOCK) r] ∧
   returned (addDescriptor fd w) = negb (r =? -1)).
Proof.
  split; [apply addDescriptor_registers|]. unfold addDescriptor. split.
  - intros He. destruct (registry w !! fd); cbn; rewrite He; eauto.
  - intros He. cbn zeta.
    assert (Hcore : ∀ w1 : World Callback K,
      trace (after (_setNonBlocking fd w1)) =
        trace w1 ++ [SysGetFl fd (fcntl_getfl fd (kernel w1)).2;
                     SysSetFl fd (Z.lor (fcntl_getfl fd (kernel w1)).2 O_NONBLOCK)
                       (fcntl_setfl fd (Z.lor (fcntl_getfl fd (kernel w1)).2 O_NONBLOCK)
                          (fcntl_getfl fd (kernel w1)).1).2] ∧
      returned (_setNonBlocking fd w1) =
        negb ((fcntl_setfl fd (Z.lor (fcntl_getfl fd (kernel w1)).2 O_NONBLOCK)
                 (fcntl_getfl fd (kernel w1)).1).2 =? -1)).
    { intros w1. unfold _setNonBlocking.
      destruct (fcntl_getfl fd (kernel w1)) as [k1 fl]. cbn [fst snd].
      destruct (fcntl_setfl fd (Z.lor fl O_NONBLOCK) k1) as [k2 r]. cbn [fst snd].
      destruct (r =? -1); cbn; by rewrite <- app_assoc. }
    destruct (registry w !! fd); cbn; rewrite He;
      [apply Hcore
      |exact (Hcore (setRegistry (<[fd := newDescriptor fd]> (registry w)) w))].
Qed.

Lemma handler_update_reload_frame fd md' w :
  is_Some (registry w !! fd) →
  let o := _reloadEventHandlers fd md' (setRegistry (<[fd := md']> (registry w)) w) in
  (∀ fd', fd' ≠ fd → registry (after o) !! fd' = registry w !! fd') ∧
  dom (registry (after o)) = dom (registry w) ∧
  _epollFd (reactor (after o)) = _epollFd (reactor w) ∧
  _isEdgeTriggered (reactor (after o)) = _isEdgeTriggered (reactor w).
Proof.
  intros Hs o. subst o.
  assert (Hd : dom (<[fd := md']> (registry w)) = dom (registry w)).
  { by apply dom_insert_lookup_L. }
  split; [|split].
  - intros fd' Hne. rewrite reload_registry, registry_setRegistry.
    destruct (_ =? -1); [by rewrite lookup_insert_ne|].
    destruct (isInitialized md'); by rewrite !lookup_insert_ne.
  - rewrite reload_registry, registry_setRegistry.
    destruct (_ =? -1); [done|]. destruct (isInitialized md'); [done|].
    rewrite insert_insert_eq. by apply dom_insert_lookup_L.
  - rewrite reload_unfold. cbn zeta. destruct (_ =? -1), (isInitialized md'); done.
Qed.

(** X8 — [addEventHandler] and [removeEventHandler] on [fd] leave every other
    entry, the set of registered descriptors, the epoll descriptor and
    the trigger mode as they are, whether they return or throw. *)
Theorem handler_update_frame fd eventType h w :
  let oa := addEventHandler fd eventType h w in
  let or := removeEventHandler fd eventType w in
  (∀ fd', fd' ≠ fd → registry (after oa) !! fd' = registry w !! fd') ∧
  dom (registry (after oa)) = dom (registry w) ∧
  _epollFd (reactor (after oa)) = _epollFd (reactor w) ∧
  _isEdgeTriggered (reactor (after oa)) = _isEdgeTriggered (reactor w) ∧
  (∀ fd', fd' ≠ fd → registry (after or) !! fd' = registry w !! fd') ∧
  dom (registry (after or)) = dom (registry w) ∧
  _epollFd (reactor (after or)) = _epollFd (reactor w) ∧
  _isEdgeTriggered (reactor (after or)) = _isEdgeTriggered (reactor w).
Proof.
  intros oa or. subst oa or. unfold addEventHandler, removeEventHandler.
  destruct (registry w !! fd) as [md|] eqn:Hm; [|done].
  destruct (handler_update_reload_frame fd (installHandlers eventType h md) w)
    as (? & ? & ? & ?); [by rewrite Hm|].
  destruct (handler_update_reload_frame fd (clearHandlers eventType md) w)
    as (? & ? & ? & ?); [by rewrite Hm|].
  done.
Qed.

(** X9 — On a registered descriptor [removeEventHandler(fd, mask)] is
    [addEventHandler(fd, mask, nullptr)]: same result, same registry,
    same kernel call. *)
Theorem removeEventHandler_as_addEventHandler fd eventType w :
  is_Some (registry w !! fd) →
  removeEventHandler fd eventType w = addEventHandler fd eventType None w.
Proof.
  intros [md Hm]. unfold removeEventHandler, addEventHandler. rewrite Hm.
  by rewrite clearHandlers_installHandlers.
Qed.

Lemma reload_next_op fd md' w :
  let o := _reloadEventHandlers fd md' (setRegistry (<[fd := md']> (registry w)) w) in
  flagOf (after o) fd = (if returned o then true else isInitialized md') ∧
  (returned o = false → registry (after o) = <[fd := md']> (registry w)).
Proof.
  intros o. subst o. unfold flagOf.
  rewrite reload_lookup by (rewrite registry_setRegistry; apply lookup_insert_eq).
  rewrite reload_registry, reload_unfold. cbn zeta.
  destruct (_ =? -1); cbn.
  - by rewrite orb_false_r.
  - split; [|by destruct (isInitialized md')].
    rewrite orb_true_r. by destruct (isInitialized md').
Qed.

(** X10 — Once [addEventHandler] has returned for [fd], the entry is
    initialized and the next [addEventHandler] on [fd] issues
    [EPOLL_CTL_MOD]; when it throws, the flag is the one it was, so a
    failed add is followed by another [EPOLL_CTL_ADD]. *)
Theorem subscription_add_then_modify fd eventType h md w :
  registry w !! fd = Some md →
  let o := addEventHandler fd eventType h w in
  flagOf (after o) fd = (if returned o then true else isInitialized md) ∧
  ∀ eventType' h', ∃ md1 ev r,
    registry (after o) !! fd = Some md1 ∧
    trace (after (addEventHandler fd eventType' h' (after o))) =
      trace (after o) ++
        [SysEpollCtl (_epollFd (reactor w))
           (if flagOf (after o) fd then EPOLL_CTL_MOD else EPOLL_CTL_ADD)
           (monitoredFd md) ev r].
Proof.
  intros Hm o. subst o.
  rewrite (addEventHandler_registered _ _ _ _ _ Hm).
  set (md' := installHandlers eventType h md).
  destruct (installHandlers_frame md eventType h) as [Hi Hf]. fold md' in Hi, Hf.
  destruct (reload_next_op fd md' w) as [Hflag _].
  split; [by rewrite Hflag, Hi|].
  intros eventType' h'.
  pose proof (reload_lookup fd md'
    (setRegistry (<[fd := md']> (registry w)) w)) as Hl.
  rewrite registry_setRegistry, lookup_insert_eq in Hl. specialize (Hl eq_refl).
  destruct (handler_update_reload_frame fd md' w) as (_ & _ & Hep & _); [by rewrite Hm|].
  set (w1 := after (_reloadEventHandlers fd md' _)) in *.
  rewrite (addEventHandler_registered _ _ _ _ _ Hl).
  destruct (update_then_reload fd
    (installHandlers eventType' h' (setInitialized md' (isInitialized md' || negb
       ((subscriptionCall (setRegistry (<[fd:=md']> (registry w)) w) md').2 =? -1)))) w1)
    as (Ht & _ & _).
  eexists _, _, _. split; [exact Hl|]. rewrite Ht.
  unfold subscriptionEvent, subscriptionOp, flagOf. rewrite Hl, Hep.
  destruct (installHandlers_frame
    (setInitialized md' (isInitialized md' || negb
       ((subscriptionCall (setRegistry (<[fd:=md']> (registry w)) w) md').2 =? -1)))
    eventType' h') as [-> ->].
  cbn [isInitialized monitoredFd setInitialized]. by rewrite Hf.
Qed.

End MoreReactorFacts.

(** ** Invariants of the reactor *)

Lemma addedIn_snoc fd tr e : addedIn fd (tr ++ [e]) = ctlStep fd (addedIn fd tr) e.
Proof. unfold addedIn. by rewrite fold_left_app. Qed.

Lemma freshAdds_snoc tr e :
  freshAdds tr →
  (∀ epfd fd ev r, e = SysEpollCtl epfd EPOLL_CTL_ADD fd ev r → addedIn fd tr = false) →
  freshAdds (tr ++ [e]).
Proof.
  intros Hf He pre epfd fd ev r post Heq.
  destruct (decide (post = [])) as [-> | Hne];
    [|destruct (exists_last Hne) as (post' & y & ->)].
  - apply app_inj_tail in Heq as [<- ->]. by eapply He.
  - change (pre ++ SysEpollCtl epfd EPOLL_CTL_ADD fd ev r :: post' ++ [y])
      with (pre ++ (SysEpollCtl epfd EPOLL_CTL_ADD fd ev r :: post') ++ [y]) in Heq.
    rewrite app_assoc in Heq. apply app_inj_tail in Heq as [-> _].
    by eapply Hf.
Qed.

Section Invariants.
Context {Callback K : Type} `{!Kernel K}.
Implicit Types (w : World Callback K) (md : MonitoredDescriptor Callback).

Lemma sound_quiet w w' e :
  sound w → registry w' = registry w → trace w' = trace w ++ [e] →
  (∀ fd b, ctlStep fd b e = b) →
  (∀ epfd fd ev r, e ≠ SysEpollCtl epfd EPOLL_CTL_ADD fd ev r) →
  sound w'.
Proof.
  intros (Hk & Hfl & Hfr) Hr Ht Hq Hna. split; [|split].
  - intros fd md. rewrite Hr. apply Hk.
  - intros fd. unfold flagOf. rewrite Hr, Ht, addedIn_snoc, Hq. apply Hfl.
  - rewrite Ht. apply freshAdds_snoc; [done|]. intros ???? ->. by edestruct Hna.
Qed.

Lemma sound_syscall k e w :
  sound w →
  (∀ fd b, ctlStep fd b e = b) →
  (∀ epfd fd ev r, e ≠ SysEpollCtl epfd EPOLL_CTL_ADD fd ev r) →
  sound (syscall k e w).
Proof. intros Hs Hq Hna. by apply (sound_quiet w _ e). Qed.

Lemma sound_logInvoke fd evt w : sound w → sound (logInvoke fd evt w).
Proof. intros Hs. by apply (sound_quiet w _ (Invoke fd evt)). Qed.

Lemma sound_delete w w' fd epfd ev r :
  sound w → registry w' = delete fd (registry w) →
  trace w' = trace w ++ [SysEpollCtl epfd EPOLL_CTL_DEL fd ev r] →
  sound w'.
Proof.
  intros (Hk & Hfl & Hfr) Hr Ht. split; [|split].
  - intros fd' md. rewrite Hr. intros [_ Hm]%lookup_delete_Some. by apply Hk.
  - intros fd'. unfold flagOf. rewrite Hr, Ht, addedIn_snoc. cbn.
    destruct (Z.eqb_spec fd fd') as [-> | Hne].
    + by rewrite lookup_delete_eq.
    + rewrite lookup_delete_ne by done. apply Hfl.
  - rewrite Ht. apply freshAdds_snoc; [done|]. intros; discriminate.
Qed.

Lemma sound_update w w' fd md1 :
  sound w → registry w' = <[fd := md1]> (registry w) →
  monitoredFd md1 = fd → isInitialized md1 = flagOf w fd →
  trace w' = trace w → sound w'.
Proof.
  intros (Hk & Hfl & Hfr) Hr Hf Hi Ht. split; [|split].
  - intros fd' md. rewrite Hr. destruct (decide (fd = fd')) as [<- | Hne].
    + rewrite lookup_insert_eq. by intros [= <-].
    + rewrite lookup_insert_ne by done. apply Hk.
  - intros fd'. unfold flagOf. rewrite Hr, Ht, <- Hfl.
    destruct (decide (fd = fd')) as [<- | Hne].
    + by rewrite lookup_insert_eq.
    + by rewrite lookup_insert_ne.
  - by rewrite Ht.
Qed.

Lemma sound_add w w' fd md1 epfd ev r :
  sound w → flagOf w fd = false →
  registry w' = <[fd := md1]> (registry w) →
  monitoredFd md1 = fd → isInitialized md1 = negb (r =? -1) →
  trace w' = trace w ++ [SysEpollCtl epfd EPOLL_CTL_ADD fd ev r] →
  sound w'.
Proof.
  intros (Hk & Hfl & Hfr) Hno Hr Hf Hi Ht. split; [|split].
  - intros fd' md. rewrite Hr. destruct (decide (fd = fd')) as [<- | Hne].
    + rewrite lookup_insert_eq. by intros [= <-].
    + rewrite lookup_insert_ne by done. apply Hk.
  - intros fd'. unfold flagOf. rewrite Hr, Ht, addedIn_snoc, <- Hfl. cbn.
    destruct (Z.eqb_spec fd fd') as [<- | Hne]; cbn.
    + rewrite lookup_insert_eq, Hi. destruct (r =? -1); [|done]. by cbn.
    + by rewrite lookup_insert_ne.
  - rewrite Ht. apply freshAdds_snoc; [done|].
    intros ???? [= _ <- _ _]. by rewrite <- Hfl.
Qed.

Lemma sound_construct edge (k : K) :
  sound (after (construct (Callback := Callback) edge k)).
Proof.
  unfold construct. destruct (epoll_create1 0 k) as [k' fd].
  assert (Hs : sound ({| reactor := {| _monitoredFds := ∅; _epollFd := fd;
                                       _isEdgeTriggered := edge |};
                         kernel := k'; trace := [SysEpollCreate 0 fd] |}
                      : World Callback K)).
  { split; [|split].
    - intros fd' md. unfold registry. cbn. by rewrite lookup_empty.
    - intros fd'. unfold flagOf, registry. cbn. by rewrite lookup_empty.
    - intros [|e pre] ????? Heq; [discriminate|].
      injection Heq as _ Heq. by destruct pre. }
  by destruct (fd =? -1).
Qed.

Lemma sound_setNonBlocking fd w : sound w → sound (after (_setNonBlocking fd w)).
Proof.
  intros Hs. unfold _setNonBlocking.
  destruct (fcntl_getfl fd (kernel w)) as [k1 fl].
  destruct (fcntl_setfl fd (Z.lor fl O_NONBLOCK) k1) as [k2 r].
  assert (Hs2 : sound (syscall k2 (SysSetFl fd (Z.lor fl O_NONBLOCK) r)
                         (syscall k1 (SysGetFl fd fl) w))).
  { apply sound_syscall; [apply sound_syscall|..]; done. }
  by destruct (r =? -1).
Qed.

Lemma sound_addDescriptor fd w : sound w → sound (after (addDescriptor fd w)).
Proof.
  intros Hs. unfold addDescriptor.
  assert (Hs1 : sound (match registry w !! fd with
                       | Some _ => w
                       | None => setRegistry (<[fd := newDescriptor fd]> (registry w)) w
                       end)).
  { destruct (registry w !! fd) eqn:Hm; [done|].
    eapply (sound_update w); [done|done|done| |done].
    unfold flagOf. by rewrite Hm. }
  destruct (_isEdgeTriggered _); [by apply sound_setNonBlocking|done].
Qed.

Lemma sound_removeDescriptor fd w : sound w → sound (after (removeDescriptor fd w)).
Proof.
  intros Hs. unfold removeDescriptor, _epollCtlDelete.
  destruct (registry w !! fd); [|done].
  destruct (epoll_ctl _ _ _ _ _) as [k r]. cbn.
  by eapply (sound_delete w).
Qed.

Lemma sound_reload fd md md' w :
  sound w → registry w !! fd = Some md →
  isInitialized md' = isInitialized md → monitoredFd md' = monitoredFd md →
  sound (after (_reloadEventHandlers fd md'
                  (setRegistry (<[fd := md']> (registry w)) w))).
Proof.
  intros Hs Hm Hi Hf.
  assert (Hfd : monitoredFd md' = fd) by (rewrite Hf; by apply Hs).
  assert (Hflag : flagOf w fd = isInitialized md) by (unfold flagOf; by rewrite Hm).
  set (w1 := setRegistry (<[fd := md']> (registry w)) w).
  assert (Hs1 : sound w1).
  { eapply (sound_update w); [done|done|done| |done]. by rewrite Hflag. }
  assert (Hflag1 : flagOf w1 fd = isInitialized md').
  { unfold flagOf, w1. by rewrite registry_setRegistry, lookup_insert_eq. }
  rewrite reload_unfold. cbn zeta.
  unfold subscriptionEvent, subscriptionOp.
  destruct (isInitialized md') eqn:Hinit.
  - assert (sound (syscall (subscriptionCall w1 md').1
              (SysEpollCtl (_epollFd (reactor w1)) EPOLL_CTL_MOD (monitoredFd md')
                 (subscriptionArg w1 md') (subscriptionCall w1 md').2) w1)).
    { by apply sound_syscall. }
    by destruct (_ =? -1).
  - rewrite Hfd. destruct (_ =? -1) eqn:Hr; cbn.
    + eapply (sound_add w1 _ fd md'); [done|by rewrite Hflag1| |done| |done].
      * change (registry w1 = <[fd := md']> (registry w1)).
        unfold w1. by rewrite registry_setRegistry, insert_insert_eq.
      * by rewrite Hr.
    + eapply (sound_add w1 _ fd (setInitialized md' true)); [done|by rewrite Hflag1|done|done| |done].
      cbn. by rewrite Hr.
Qed.

Lemma sound_addEventHandler fd eventType h w :
  sound w → sound (after (addEventHandler fd eventType h w)).
Proof.
  intros Hs. unfold addEventHandler. destruct (registry w !! fd) as [md|] eqn:Hm; [|done].
  apply (sound_reload fd md); [done|done|..]; apply installHandlers_frame.
Qed.

Lemma sound_removeEventHandler fd eventType w :
  sound w → sound (after (removeEventHandler fd eventType w)).
Proof.
  intros Hs. unfold removeEventHandler. destruct (registry w !! fd) as [md|] eqn:Hm; [|done].
  rewrite clearHandlers_installHandlers.
  apply (sound_reload fd md); [done|done|..]; apply installHandlers_frame.
Qed.

Section WithCallbacks.
Variable invoke : Callbacks Callback K.
Hypothesis invoke_sound : ∀ cb arg w, sound w → sound (after (invoke cb arg w)).

Lemma sound_dispatchCategories fd evs evts w :
  sound w → sound (after (dispatchCategories invoke fd evs evts w)).
Proof.
  revert w. induction evts as [|evt rest IH]; intros w Hs; [done|]. cbn.
  destruct (registry w !! fd) as [md|]; [|done].
  destruct (hasHandler md (Z.land evs evt)); [|by apply IH].
  destruct (getHandler md (Z.land evs evt)) as [e|[cb|]]; [done| |done].
  assert (Hl : sound (logInvoke fd (Z.land evs evt) w)) by (by apply sound_logInvoke).
  pose proof (invoke_sound cb fd _ Hl) as Hcb.
  destruct (invoke cb fd _) as [[] w1|e w1]; [by apply IH|done].
Qed.

Lemma sound_dispatchOne ev w :
  sound w → sound (after (dispatchOne invoke ev w)).
Proof.
  intros Hs. unfold dispatchOne.
  pose proof (sound_dispatchCategories (data_fd ev) (events ev) allEventTypes w Hs) as Hc.
  destruct (dispatchCategories _ _ _ _ _) as [[|] w1|e w1]; [|done|done].
  destruct (_ =? 0); [done|].
  pose proof (sound_removeDescriptor (data_fd ev) w1 Hc) as Hr.
  by destruct (removeDescriptor _ _) as [[] w2|e w2].
Qed.

Lemma sound_dispatchEvents batch w :
  sound w → sound (after (dispatchEvents invoke batch w)).
Proof.
  revert w. induction batch as [|ev rest IH]; intros w Hs; [done|]. cbn.
  pose proof (sound_dispatchOne ev w Hs) as H1.
  destruct (dispatchOne invoke ev w) as [[|] w1|e w1]; [by apply IH|done|done].
Qed.

Lemma sound_waitForEvents timeout w :
  sound w → sound (after (waitForEvents invoke timeout w)).
Proof.
  intros Hs. unfold waitForEvents.
  destruct (epoll_wait _ _ _ _) as [k' [n buf]].
  assert (H0 : sound (syscall k' (SysEpollWait (_epollFd (reactor w)) _maxEventsNum timeout n) w))
    by (by apply sound_syscall).
  pose proof (sound_dispatchEvents (take (Z.to_nat n) buf) _ H0) as Hd.
  by destruct (dispatchEvents _ _ _) as [[] w1|e w1].
Qed.

Lemma sound_perform c w : sound w → sound (after (perform invoke c w)).
Proof.
  destruct c; cbn.
  - apply sound_addDescriptor.
  - apply sound_removeDescriptor.
  - apply sound_addEventHandler.
  - apply sound_removeEventHandler.
  - apply sound_waitForEvents.
Qed.

Lemma sound_performAll cs w : sound w → sound (performAll invoke cs w).
Proof.
  revert w. induction cs as [|c cs IH]; intros w Hs; [done|].
  cbn. apply IH. by apply sound_perform.
Qed.

End WithCallbacks.
End Invariants.

(** X11 — The invariants hold in every state a caller can reach from the
    constructor through the public interface, provided the callbacks
    themselves keep them: each entry is stored under its own descriptor,
    and its [isInitialized] flag is true exactly when the last
    [EPOLL_CTL_ADD] for the descriptor succeeded and no [EPOLL_CTL_DEL]
    followed. *)
Theorem flags_agree_with_kernel_calls {Callback K} `{!Kernel K}
    (invoke : Callbacks Callback K) (edge : bool) (k : K) (cs : list (call Callback)) :
  (∀ cb arg w, sound w → sound (after (invoke cb arg w))) →
  keysMatch (performAll invoke cs (after (construct edge k))) ∧
  flagsMatch (performAll invoke cs (after (construct edge k))).
Proof.
  intros Hcb.
  destruct (sound_performAll invoke Hcb cs _ (sound_construct edge k)) as (? & ? & ?).
  done.
Qed.

(** X12 — The code comment of [_reloadEventHandlers] asks that
    [EPOLL_CTL_ADD] be called only once for a descriptor: in every trace
    produced from the constructor through the public interface, an
    [EPOLL_CTL_ADD] for [fd] is never issued while an earlier successful
    add of [fd] has not been followed by an [EPOLL_CTL_DEL]. *)
Theorem never_added_twice {Callback K} `{!Kernel K}
    (invoke : Callbacks Callback K) (edge : bool) (k : K) (cs : list (call Callback)) :
  (∀ cb arg w, sound w → sound (after (invoke cb arg w))) →
  freshAdds (trace (performAll invoke cs (after (construct edge k)))).
Proof.
  intros Hcb.
  destruct (sound_performAll invoke Hcb cs _ (sound_construct edge k)) as (? & ? & ?).
  done.
Qed.

(** ** More on the dispatch loop *)

Lemma invokedIn_app tr1 tr2 : invokedIn (tr1 ++ tr2) = invokedIn tr1 ++ invokedIn tr2.
Proof. unfold invokedIn. apply omap_app. Qed.

Lemma invokedIn_Invoke fd (evts : list Z) :
  invokedIn (Invoke fd <$> evts) = (λ evt, (fd, evt)) <$> evts.
Proof. induction evts as [|evt rest IH]; [done|]. cbn. by rewrite <- IH. Qed.

Lemma expectedInvocations_ext {Callback} (reg1 reg2 : gmap Z (MonitoredDescriptor Callback))
    (batch : list epoll_event) :
  (∀ ev, ev ∈ batch → reg1 !! data_fd ev = reg2 !! data_fd ev) →
  expectedInvocations reg1 batch = expectedInvocations reg2 batch.
Proof.
  unfold expectedInvocations. induction batch as [|ev rest IH]; intros He; [done|].
  cbn. rewrite (He ev) by left. f_equal. apply IH. intros ev' ?. apply He. by right.
Qed.

Lemma elem_of_hangupFds fd (batch : list epoll_event) :
  fd ∈ hangupFds batch → fd ∈ data_fd <$> batch.
Proof.
  unfold hangupFds. rewrite !list_elem_of_fmap.
  intros (ev & -> & Hin). apply list_elem_of_filter in Hin as [_ Hin]. eauto.
Qed.

Section MoreDispatchFacts.
Context {Callback K : Type} `{!Kernel K}.
Variable invoke : Callbacks Callback K.
Implicit Types (w : World Callback K) (md : MonitoredDescriptor Callback).
Implicit Types (fd evs : Z) (ev : epoll_event).

Lemma dispatchCategories_inert fd evs evts md w :
  inert invoke →
  registry w !! fd = Some md →
  (∀ evt, evt ∈ evts → evt ∈ allEventTypes) →
  ∃ w', dispatchCategories invoke fd evs evts w = Done Continue w' ∧
        registry w' = registry w ∧
        trace w' = trace w ++
          (Invoke fd <$> filter (λ evt, selects evs evt && hasHandler md evt) evts).
Proof.
  intros Hin. revert w. induction evts as [|evt rest IH]; intros w Hm Hsub.
  { exists w. cbn. by rewrite app_nil_r. }
  assert (He : evt ∈ allEventTypes) by (apply Hsub; left).
  assert (Hrest : ∀ e, e ∈ rest → e ∈ allEventTypes) by (intros e ?; apply Hsub; by right).
  cbn [dispatchCategories]. rewrite Hm, filter_cons.
  rewrite (selects_land evs evt He).
  destruct (selects evs evt) eqn:Hsel; cbn [andb].
  - destruct (hasHandler md evt) eqn:Hh.
    + destruct (hasHandler_true_callable md evt Hh) as [cb ->].
      destruct (Hin cb fd (logInvoke fd evt w)) as (w1 & -> & Hr1 & Ht1).
      destruct (IH w1) as (w' & Hd & Hr & Ht); [by rewrite Hr1|done|].
      exists w'. split; [done|]. split; [by rewrite Hr, Hr1|].
      rewrite Ht, Ht1. cbn. rewrite decide_True by done.
      by rewrite <- app_assoc.
    + rewrite decide_False by (cbn; tauto). by apply IH.
  - rewrite hasHandler_zero, decide_False by (cbn; tauto). by apply IH.
Qed.

(** X13 — With callbacks that leave the reactor alone, the dispatch of one
    reported pair for a registered descriptor invokes the handler of
    every category that is both reported and handled, once each, in the
    order IN, OUT, RDHUP, PRI, ERR, HUP, and nothing else; a callback
    shared by two reported categories runs twice. *)
Theorem dispatch_invokes_matching fd evs md w :
  inert invoke →
  registry w !! fd = Some md →
  ∃ w', dispatchCategories invoke fd evs allEventTypes w = Done Continue w' ∧
        registry w' = registry w ∧
        trace w' = trace w ++ (Invoke fd <$> matching md evs).
Proof.
  intros Hin Hm. by apply dispatchCategories_inert.
Qed.

Lemma dispatchOne_inert ev md w :
  inert invoke →
  registry w !! data_fd ev = Some md →
  ∃ w', dispatchOne invoke ev w = Done Continue w' ∧
        registry w' = (if hangupReported (events ev)
                       then delete (data_fd ev) (registry w) else registry w) ∧
        invokedIn (trace w') =
          invokedIn (trace w) ++ ((λ evt, (data_fd ev, evt)) <$> matching md (events ev)).
Proof.
  intros Hin Hm. unfold dispatchOne, hangupReported.
  destruct (dispatchCategories_inert (data_fd ev) (events ev) allEventTypes md w Hin Hm)
    as (w1 & -> & Hr1 & Ht1); [done|].
  assert (Hinv : invokedIn (trace w1) =
    invokedIn (trace w) ++ ((λ evt, (data_fd ev, evt)) <$> matching md (events ev))).
  { by rewrite Ht1, invokedIn_app, invokedIn_Invoke. }
  destruct (_ =? 0); cbn [negb].
  - exists w1. by rewrite Hr1.
  - unfold removeDescriptor, _epollCtlDelete. rewrite Hr1, Hm.
    destruct (epoll_ctl _ _ _ _ _) as [k r]. eexists. split; [done|]. split.
    + cbn. unfold registry in *. cbn. by rewrite Hr1.
    + cbn. by rewrite invokedIn_app, Hinv, app_nil_r.
Qed.

Lemma dispatchEvents_inert batch w :
  inert invoke →
  NoDup (data_fd <$> batch) →
  (∀ ev, ev ∈ batch → is_Some (registry w !! data_fd ev)) →
  ∃ w', dispatchEvents invoke batch w = Done Continue w' ∧
        (∀ fd, registry w' !! fd =
               if bool_decide (fd ∈ hangupFds batch) then None else registry w !! fd) ∧
        invokedIn (trace w') = invokedIn (trace w) ++ expectedInvocations (registry w) batch.
Proof.
  intros Hin. revert w. induction batch as [|ev rest IH]; intros w Hnd Hreg.
  { exists w. split; [done|]. split; [done|]. by rewrite app_nil_r. }
  rewrite fmap_cons in Hnd. apply NoDup_cons in Hnd as [Hnotin Hnd].
  destruct (Hreg ev) as [md Hm]; [left|].
  destruct (dispatchOne_inert ev md w Hin Hm) as (w1 & Hd1 & Hr1 & Ht1).
  assert (Hsame : ∀ ev', ev' ∈ rest → registry w1 !! data_fd ev' = registry w !! data_fd ev').
  { intros ev' Hev'. rewrite Hr1.
    destruct (hangupReported (events ev)); [|done].
    apply lookup_delete_ne. intros Heq. apply Hnotin. rewrite Heq.
    apply list_elem_of_fmap. eauto. }
  destruct (IH w1 Hnd) as (w' & Hd & Hr & Ht).
  { intros ev' Hev'. rewrite Hsame by done. apply Hreg. by right. }
  exists w'. cbn [dispatchEvents]. rewrite Hd1. split; [done|]. split.
  - intros fd. rewrite Hr, Hr1. unfold hangupFds. rewrite filter_cons.
    destruct (hangupReported (events ev)) eqn:Hh.
    + rewrite decide_True by done. rewrite fmap_cons.
      destruct (decide (fd = data_fd ev)) as [-> | Hne].
      * rewrite (bool_decide_eq_true_2 (_ ∈ _ :: _)) by left.
        rewrite lookup_delete_eq. by case_bool_decide.
      * rewrite lookup_delete_ne by done.
        rewrite (bool_decide_ext (fd ∈ data_fd ev :: _) (fd ∈ hangupFds rest)); [done|].
        rewrite elem_of_cons. unfold hangupFds. tauto.
    + by rewrite decide_False by (cbn; tauto).
  - rewrite Ht, Ht1, <- app_assoc. f_equal.
    rewrite (expectedInvocations_ext _ _ _ Hsame).
    unfold expectedInvocations. cbn. by rewrite Hm.
Qed.

(** X14 — A whole wait-cycle with callbacks that leave the reactor alone, when
    every reported descriptor is registered and reported once: the call
    returns, the invocations are those the batch calls for, pair by
    pair, and afterwards exactly the descriptors reported with a hang-up
    bit are gone while every other entry is unchanged. *)
Theorem wait_cycle_inert timeout w :
  inert invoke →
  NoDup (data_fd <$> reportedBatch timeout w) →
  (∀ ev, ev ∈ reportedBatch timeout w → is_Some (registry w !! data_fd ev)) →
  ∃ w', waitForEvents invoke timeout w = Done tt w' ∧
        (∀ fd, registry w' !! fd =
               if bool_decide (fd ∈ hangupFds (reportedBatch timeout w))
               then None else registry w !! fd) ∧
        invokedIn (trace w') =
          invokedIn (trace w) ++ expectedInvocations (registry w) (reportedBatch timeout w).
Proof.
  intros Hin Hnd Hreg.
  assert (Hr0 : registry (enterWait timeout w) = registry w).
  { unfold enterWait. by destruct (epoll_wait _ _ _ _) as [k' [n buf]]. }
  assert (Ht0 : invokedIn (trace (enterWait timeout w)) = invokedIn (trace w)).
  { unfold enterWait. destruct (epoll_wait _ _ _ _) as [k' [n buf]]. cbn.
    by rewrite invokedIn_app, app_nil_r. }
  destruct (dispatchEvents_inert (reportedBatch timeout w) (enterWait timeout w) Hin Hnd)
    as (w' & Hd & Hr & Ht).
  { intros ev Hev. rewrite Hr0. by apply Hreg. }
  exists w'. rewrite waitForEvents_unfold, Hd. split; [done|].
  rewrite Hr0, Ht0 in *. done.
Qed.

(** X15 — When [epoll_wait] reports no event, or fails with -1, the wait-cycle
    invokes nothing, changes no entry and returns normally: the failure
    is not passed on to the caller. *)
Theorem waitForEvents_nothing_reported timeout w :
  (epoll_wait (_epollFd (reactor w)) _maxEventsNum timeout (kernel w)).2.1 ≤ 0 →
  waitForEvents invoke timeout w = Done tt (enterWait timeout w) ∧
  registry (enterWait timeout w) = registry w ∧
  trace (enterWait timeout w) =
    trace w ++ [SysEpollWait (_epollFd (reactor w)) _maxEventsNum timeout
                  (epoll_wait (_epollFd (reactor w)) _maxEventsNum timeout (kernel w)).2.1].
Proof.
  intros Hn. unfold waitForEvents, enterWait.
  destruct (epoll_wait _ _ _ _) as [k' [n buf]]. cbn [fst snd] in *.
  replace (Z.to_nat n) with 0%nat by lia. done.
Qed.

Lemma dispatchCategories_threw fd evs evts w e w' :
  dispatchCategories invoke fd evs evts w = Threw e w' →
  ∃ c, c ∈ callsOfCategories invoke fd evs evts w ∧
       invoke c.1.1 c.1.2 c.2 = Threw e w'.
Proof.
  revert w. induction evts as [|evt rest IH]; intros w Hd; [done|]. cbn in *.
  destruct (registry w !! fd) as [md|]; [|done].
  destruct (hasHandler md (Z.land evs evt)) eqn:Hh; [|by apply IH].
  destruct (hasHandler_true_callable md _ Hh) as [cb Hg]. rewrite Hg in *.
  destruct (invoke cb fd (logInvoke fd (Z.land evs evt) w)) as [[] w1|e1 w1] eqn:Hi.
  - destruct (IH w1 Hd) as (c & Hin & Hc). exists c. split; [by right|done].
  - injection Hd as <- <-. exists (cb, fd, logInvoke fd (Z.land evs evt) w).
    split; [left|done].
Qed.

Lemma dispatchEvents_threw batch w e w' :
  dispatchEvents invoke batch w = Threw e w' →
  ∃ c, c ∈ callsOf invoke batch w ∧ invoke c.1.1 c.1.2 c.2 = Threw e w'.
Proof.
  revert w. induction batch as [|ev rest IH]; intros w Hd; [done|].
  cbn [dispatchEvents callsOf] in *. unfold dispatchOne in *.
  destruct (dispatchCategories invoke (data_fd ev) (events ev) allEventTypes w)
    as [[|] w1|e1 w1] eqn:Hc; [| done |].
  - assert (Hrest : ∃ w2, (if Z.land (events ev) (Z.lor EPOLLRDHUP EPOLLHUP) =? 0
                           then Done Continue w1
                           else match removeDescriptor (data_fd ev) w1 with
                                | Done _ w2 => Done Continue w2
                                | Threw e0 w2 => Threw e0 w2
                                end) = Done Continue w2).
    { destruct (_ =? 0); [eauto|].
      destruct (removeDescriptor_done (data_fd ev) w1) as (w2 & -> & _). eauto. }
    destruct Hrest as [w2 Hw2]. rewrite Hw2 in *.
    destruct (IH w2 Hd) as (c & Hin & Hthrow). exists c.
    split; [apply elem_of_app; by right|done].
  - injection Hd as <- <-.
    destruct (dispatchCategories_threw _ _ _ _ _ _ Hc) as (c & Hin & Hthrow).
    exists c. split; [apply elem_of_app; by left|done].
Qed.

(** X16 — The dispatch loop raises nothing of its own: [getHandler] is only
    called where [hasHandler] answered true, so neither the
    invalid-argument error nor a call of an empty function can occur.
    When [waitForEvents] throws, one of the callbacks it invoked in this
    cycle threw that exception and left that state; and [waitForEvents]
    returns whenever the callbacks it invokes return. *)
Theorem waitForEvents_throws_only_from_callbacks timeout w :
  (∀ e w', waitForEvents invoke timeout w = Threw e w' →
     ∃ c, c ∈ callsOf invoke (reportedBatch timeout w) (enterWait timeout w) ∧
          invoke c.1.1 c.1.2 c.2 = Threw e w') ∧
  (Forall (returns invoke)
     (callsOf invoke (reportedBatch timeout w) (enterWait timeout w)) →
   returned (waitForEvents invoke timeout w) = true).
Proof.
  assert (H1 : ∀ e w', waitForEvents invoke timeout w = Threw e w' →
     ∃ c, c ∈ callsOf invoke (reportedBatch timeout w) (enterWait timeout w) ∧
          invoke c.1.1 c.1.2 c.2 = Threw e w').
  { intros e w'. rewrite waitForEvents_unfold.
    destruct (dispatchEvents _ _ _) as [[|] w1|e1 w1] eqn:Hd; [done|done|].
    intros [= <- <-]. by apply dispatchEvents_threw. }
  split; [exact H1|]. intros Hall.
  destruct (waitForEvents invoke timeout w) as [[] w1|e w1] eqn:Hw; [done|].
  destruct (H1 e w1 eq_refl) as (c & Hin & Hthrow).
  rewrite Forall_forall in Hall. specialize (Hall c Hin).
  unfold returns in Hall. by rewrite Hthrow in Hall.
Qed.

(** X17 — When the loop reaches a reported pair whose descriptor is not in the
    registry, [waitForEvents] returns at once: no handler is invoked and
    no hang-up removal is made for that pair or for any pair after it. *)
Theorem unregistered_descriptor_ends_cycle timeout w pre ev rest w1 :
  reportedBatch timeout w = pre ++ ev :: rest →
  dispatchEvents invoke pre (enterWait timeout w) = Done Continue w1 →
  registry w1 !! data_fd ev = None →
  waitForEvents invoke timeout w = Done tt w1.
Proof.
  intros Hb Hpre Hm. rewrite waitForEvents_unfold, Hb.
  assert (Hgo : ∀ l w0, dispatchEvents invoke l w0 = Done Continue w1 →
                        dispatchEvents invoke (l ++ ev :: rest) w0 = Done Return w1).
  { induction l as [|x l IH]; intros w0 Hd; cbn [app dispatchEvents] in *.
    - injection Hd as ->. unfold dispatchOne, allEventTypes.
      by rewrite (dispatchCategories_unregistered invoke _ _ _ _ _ Hm).
    - destruct (dispatchOne invoke x w0) as [[|] w2|e w2]; [by apply IH|done|done]. }
  by rewrite (Hgo _ _ Hpre).
Qed.

End MoreDispatchFacts.

(** ** The demo server *)

Section ServerFacts.
Context {K : Type} `{!Kernel K, !Sockets K}.
Implicit Types (w : World serverCallback K).

Lemma addEventHandler_done {Callback} fd eventType (h : handler Callback)
    (md : MonitoredDescriptor Callback) (w w' : World Callback K) :
  registry w !! fd = Some md →
  addEventHandler fd eventType h w = Done tt w' →
  registry w' !! fd = Some (setInitialized (installHandlers eventType h md) true) ∧
  ∀ fd', fd' ≠ fd → registry w' !! fd' = registry w !! fd'.
Proof.
  intros Hm Hd.
  pose proof (reload_lookup fd (installHandlers eventType h md)
    (setRegistry (<[fd := installHandlers eventType h md]> (registry w)) w)) as Hl.
  rewrite registry_setRegistry, lookup_insert_eq in Hl. specialize (Hl eq_refl).
  destruct (handler_update_reload_frame fd (installHandlers eventType h md) w)
    as (Hfr & _); [by rewrite Hm|].
  rewrite <- (addEventHandler_registered _ _ _ _ _ Hm) in Hl, Hfr.
  assert (Hret : ((subscriptionCall
            (setRegistry (<[fd := installHandlers eventType h md]> (registry w)) w)
            (installHandlers eventType h md)).2 =? -1) = false).
  { rewrite (addEventHandler_registered _ _ _ _ _ Hm), reload_unfold in Hd.
    cbn zeta in Hd. by destruct (_ =? -1). }
  rewrite Hret, orb_true_r, Hd in Hl. rewrite Hd in Hfr. done.
Qed.

Lemma addDescriptor_others {Callback} fd fd' (w : World Callback K) :
  fd' ≠ fd → registry (after (addDescriptor fd w)) !! fd' = registry w !! fd'.
Proof.
  intros Hne. rewrite addDescriptor_registry.
  destruct (registry w !! fd); [done|]. by rewrite lookup_insert_ne.
Qed.

(** X18 — [tcpAccept] throws when [accept] returns zero or a negative value
    (zero, a valid descriptor, is treated as a failure); the reactor is
    not touched. *)
Theorem tcpAccept_rejects_nonpositive serverFd w :
  (accept serverFd (kernel w)).2 ≤ 0 →
  ∃ what, tcpAccept serverFd w
            = Threw (runtime_error what) (setKernel (accept serverFd (kernel w)).1 w).
Proof.
  intros Hc. unfold tcpAccept. destruct (accept serverFd (kernel w)) as [k1 c].
  cbn [fst snd] in *. destruct (Z.ltb_spec 0 c); [lia|]. eauto.
Qed.

(** X19 — Whenever [tcpAccept] returns, the descriptor obtained from [accept]
    is positive, registered and subscribed, its readable handler is
    [onClientWrite], its peer-half-closed and hang-up handlers are
    [onClientDisconnect]; the entries of the other descriptors are
    unchanged, and the three remaining slots are empty if the descriptor
    was not registered before. *)
Theorem tcpAccept_registers_client serverFd w w' :
  tcpAccept serverFd w = Done tt w' →
  0 < (accept serverFd (kernel w)).2 ∧
  (∃ md, registry w' !! (accept serverFd (kernel w)).2 = Some md ∧
     isInitialized md = true ∧
     getHandler md EPOLLIN = inr (Some CbOnClientWrite) ∧
     getHandler md EPOLLRDHUP = inr (Some CbOnClientDisconnect) ∧
     getHandler md EPOLLHUP = inr (Some CbOnClientDisconnect) ∧
     (registry w !! (accept serverFd (kernel w)).2 = None →
      getHandler md EPOLLOUT = inr None ∧ getHandler md EPOLLPRI = inr None ∧
      getHandler md EPOLLERR = inr None)) ∧
  (∀ fd', fd' ≠ (accept serverFd (kernel w)).2 → registry w' !! fd' = registry w !! fd').
Proof.
  unfold tcpAccept. destruct (accept serverFd (kernel w)) as [k1 c]. cbn [fst snd].
  destruct (Z.ltb_spec 0 c) as [Hpos|]; [|done].
  pose proof (addDescriptor_registry c (setKernel k1 w)) as Hreg.
  pose proof (λ fd' H, addDescriptor_others (Callback := serverCallback) c fd' (setKernel k1 w) H)
    as Hoth.
  destruct (addDescriptor c (setKernel k1 w)) as [[] w2|e w2]; [|done]. cbn [after] in *.
  change (registry (setKernel k1 w)) with (registry w) in *.
  assert (Hm2 : ∃ md0, registry w2 !! c = Some md0 ∧
                       (registry w !! c = None → md0 = newDescriptor c)).
  { rewrite Hreg. destruct (registry w !! c) as [md0|] eqn:Hm.
    - rewrite Hm. exists md0. by split.
    - rewrite lookup_insert_eq. eauto. }
  destruct Hm2 as (md0 & Hm2 & Hnew).
  destruct (addEventHandler c EPOLLIN _ w2) as [[] w3|e w3] eqn:H3; [|done].
  destruct (addEventHandler_done _ _ _ _ _ _ Hm2 H3) as [Hm3 Hfr3].
  intros H4. destruct (addEventHandler_done _ _ _ _ _ _ Hm3 H4) as [Hm4 Hfr4].
  split; [done|]. split.
  - eexists. split; [exact Hm4|]. split; [done|].
    rewrite !getHandler_setInitialized.
    rewrite !getHandler_installHandlers by (rewrite elem_of_allEventTypes; tauto).
    rewrite !getHandler_setInitialized.
    rewrite !getHandler_installHandlers by (rewrite elem_of_allEventTypes; tauto).
    split; [done|]. split; [done|]. split; [done|].
    intros Hfresh. by rewrite (Hnew Hfresh).
  - intros fd' Hne. by rewrite Hfr4, Hfr3, Hoth.
Qed.

(** X20 — Whenever [startServer] returns, the listening socket is a positive
    descriptor, registered and subscribed, and the accept lambda is its
    readable and writable handler. *)
Theorem startServer_registers_listener address port w fd w' :
  startServer address port w = Done fd w' →
  0 < fd ∧ fd = (socket (kernel w)).2 ∧
  ∃ md, registry w' !! fd = Some md ∧ isInitialized md = true ∧
        getHandler md EPOLLIN = inr (Some CbAcceptLambda) ∧
        getHandler md EPOLLOUT = inr (Some CbAcceptLambda).
Proof.
  unfold startServer. destruct (socket (kernel w)) as [k1 s]. cbn [fst snd].
  destruct (Z.leb_spec s 0) as [|Hpos]; [done|].
  destruct (bind s address port k1) as [k2 b]. destruct (negb (b =? 0)); [done|].
  destruct (listen s TCP_ACCEPT_BACKLOG k2) as [k3 l]. destruct (negb (l =? 0)); [done|].
  destruct (addDescriptor_registers (Callback := serverCallback) s (setKernel k3 w))
    as [md0 Hm0].
  destruct (addDescriptor s (setKernel k3 w)) as [[] w1|e w1]; [|done]. cbn [after] in Hm0.
  destruct (addEventHandler s _ _ w1) as [[] w2|e w2] eqn:H2; [|done].
  destruct (addEventHandler_done _ _ _ _ _ _ Hm0 H2) as [Hm2 _].
  intros [= <- <-]. split; [done|]. split; [done|].
  eexists. split; [exact Hm2|]. split; [done|].
  rewrite !getHandler_setInitialized.
  rewrite !getHandler_installHandlers by (rewrite elem_of_allEventTypes; tauto).
  done.
Qed.

Lemma sound_setKernel {Callback} (k : K) (w : World Callback K) :
  sound w → sound (setKernel k w).
Proof. intros (? & ? & ?). by split. Qed.

Lemma sound_serverInvoke cb arg w : sound w → sound (after (serverInvoke cb arg w)).
Proof.
  intros Hs. destruct cb; cbn.
  - unfold onClientWrite. destruct (recv arg MAX_BUF_LENGTH (kernel w)) as [k1 n].
    destruct (n =? -1); [by apply sound_setKernel|].
    destruct (send arg httpHello k1) as [k2 ?]. by apply sound_setKernel.
  - done.
  - unfold tcpAccept. destruct (accept arg (kernel w)) as [k1 c].
    pose proof (sound_setKernel k1 w Hs) as H1.
    destruct (0 <? c); [|done].
    pose proof (sound_addDescriptor c _ H1) as H2.
    destruct (addDescriptor c (setKernel k1 w)) as [[] w2|e w2]; [|done].
    cbn [after] in H2.
    pose proof (sound_addEventHandler c EPOLLIN (Some CbOnClientWrite) _ H2) as H3.
    destruct (addEventHandler c EPOLLIN _ w2) as [[] w3|e w3]; [|done].
    cbn [after] in H3. by apply sound_addEventHandler.
Qed.

Lemma sound_startServer address port w :
  sound w → sound (after (startServer address port w)).
Proof.
  intros Hs. unfold startServer. destruct (socket (kernel w)) as [k1 s].
  destruct (s <=? 0); [by apply sound_setKernel|].
  destruct (bind s address port k1) as [k2 b].
  destruct (negb (b =? 0)); [by apply sound_setKernel|].
  destruct (listen s TCP_ACCEPT_BACKLOG k2) as [k3 l].
  destruct (negb (l =? 0)); [by apply sound_setKernel|].
  pose proof (sound_addDescriptor s _ (sound_setKernel k3 w Hs)) as H1.
  destruct (addDescriptor s (setKernel k3 w)) as [[] w1|e w1]; [|done].
  cbn [after] in H1.
  pose proof (sound_addEventHandler s (Z.lor EPOLLIN EPOLLOUT) (Some CbAcceptLambda) _ H1) as H2.
  by destruct (addEventHandler s _ _ w1) as [[] w2|e w2].
Qed.

(** X21 — The server as [main] runs it: the reactor is constructed
    edge-triggered, [startServer] is called, and then any number of
    wait-cycles (or other calls) follow, with the handlers of
    [main.cpp]. In every state reached the registry flags agree with
    the kernel calls made, and no descriptor is added to the interest
    list twice. *)
Theorem server_keeps_invariants (k : K) address port (cs : list (call serverCallback)) :
  let w := performAll serverInvoke cs
             (after (startServer address port (after (construct true k)))) in
  keysMatch w ∧ flagsMatch w ∧ freshAdds (trace w).
Proof.
  apply (sound_performAll serverInvoke sound_serverInvoke).
  apply sound_startServer, sound_construct.
Qed.

End ServerFacts.

(** ** Instances of the further properties *)

Lemma run_sound cb arg (w : World callback TestKernel) :
  sound w → sound (after (run cb arg w)).
Proof.
  intros Hs. destruct cb; [exact Hs|]. by apply sound_removeDescriptor.
Qed.

Lemma quiet_inert : inert quiet.
Proof. intros cb arg w. exists w. by split. Qed.

Lemma run_returns cb arg (w : World callback TestKernel) :
  returned (run cb arg w) = true.
Proof.
  destruct cb; [done|]. cbn.
  by destruct (removeDescriptor_done arg w) as (w' & -> & _).
Qed.

Lemma setHandler_then_getHandler_witness :
  getHandler (setHandler full EPOLLIN None) EPOLLIN = inr None ∧
  getHandler (setHandler full EPOLLIN None) EPOLLOUT = inr (Some record).
Proof.
  split.
  - exact (proj1 (setHandler_then_getHandler full EPOLLIN EPOLLIN None
                    category_IN category_IN)).
  - exact (proj1 (setHandler_then_getHandler full EPOLLIN EPOLLOUT None
                    category_IN category_OUT)).
Defined.

Lemma getHandler_domain_witness :
  (∃ what, getHandler full 0 = inl (runtime_error what)) ∧
  (∃ h, getHandler full EPOLLHUP = inr h ∧ hasHandler full EPOLLHUP = nonnull h).
Proof.
  split.
  - apply (proj1 (getHandler_domain full 0)).
    rewrite elem_of_allEventTypes. intros [H|[H|[H|[H|[H|H]]]]]; discriminate H.
  - apply (proj1 (proj2 (getHandler_domain full EPOLLHUP))).
    rewrite elem_of_allEventTypes. tauto.
Defined.

Lemma mask_only_categories_witness :
  installHandlers EPOLLET None full = full ∧ clearHandlers EPOLLET full = full.
Proof.
  exact (proj2 (proj2 (mask_only_categories_count EPOLLET None full)) eq_refl).
Defined.

Lemma resultingEvents_bits_witness :
  selects (resultingEvents true full) EPOLLRDHUP = hasHandler full EPOLLRDHUP.
Proof.
  apply (proj1 (resultingEvents_bits true full) EPOLLRDHUP).
  rewrite elem_of_allEventTypes. tauto.
Defined.

Lemma removeDescriptor_best_effort_witness :
  removeDescriptor 9 bare7 = Done tt bare7 ∧
  ∃ w', removeDescriptor 7 bare7 = Done tt w' ∧
    trace w' = trace bare7 ++
      [SysEpollCtl 3 EPOLL_CTL_DEL 7 {| events := 0; data_fd := 7 |} (-1)] ∧
    registry w' = delete 7 (registry bare7).
Proof.
  split.
  - exact (proj1 (removeDescriptor_best_effort 9 bare7) eq_refl).
  - exact (proj1 (proj2 (removeDescriptor_best_effort 7 bare7))
             (ex_intro _ (newDescriptor 7) eq_refl)).
Defined.

Lemma removeEventHandler_unregistered_witness :
  removeEventHandler 9 EPOLLIN bare7 = Threw out_of_range bare7.
Proof. exact (removeEventHandler_unregistered 9 EPOLLIN bare7 eq_refl). Defined.

(** On the closed descriptor 7 the switch to non-blocking mode fails:
    [addDescriptor] throws, and 7 is registered all the same. *)
Lemma addDescriptor_nonblocking_witness :
  is_Some (registry (after (addDescriptor 7 (boot true [7] []))) !! 7) ∧
  trace (after (addDescriptor 7 (boot true [7] []))) =
    trace (boot true [7] []) ++ [SysGetFl 7 (-1); SysSetFl 7 (-1) (-1)] ∧
  returned (addDescriptor 7 (boot true [7] [])) = false.
Proof.
  split.
  - exact (proj1 (addDescriptor_nonblocking 7 (boot true [7] []))).
  - exact (proj2 (proj2 (addDescriptor_nonblocking 7 (boot true [7] []))) eq_refl).
Defined.

Lemma removeEventHandler_as_addEventHandler_witness :
  removeEventHandler 7 EPOLLIN reading7 = addEventHandler 7 EPOLLIN None reading7.
Proof.
  apply (removeEventHandler_as_addEventHandler 7 EPOLLIN reading7). by eexists.
Defined.

Lemma subscription_add_then_modify_witness :
  flagOf (after (addEventHandler 7 EPOLLIN (Some record) bare7)) 7 = true ∧
  flagOf (after (addEventHandler 7 EPOLLIN (Some record) closed7)) 7 = false.
Proof.
  split.
  - exact (proj1 (subscription_add_then_modify 7 EPOLLIN (Some record)
                    (newDescriptor 7) bare7 eq_refl)).
  - exact (proj1 (subscription_add_then_modify 7 EPOLLIN (Some record)
                    (newDescriptor 7) closed7 eq_refl)).
Defined.

(** A descriptor whose handler removes it during a wait-cycle, and that
    is registered and subscribed again afterwards. *)
Lemma flags_agree_witness :
  let w := performAll run
    [AddDescriptor 7; AddEventHandler 7 EPOLLIN (Some removeSelf); WaitForEvents (-1);
     AddDescriptor 7; AddEventHandler 7 EPOLLIN (Some record)]
    (after (construct false
       {| interest := ∅; closed := [];
          pending := [[{| events := EPOLLIN; data_fd := 7 |}]] |})) in
  keysMatch w ∧ flagsMatch w.
Proof. exact (flags_agree_with_kernel_calls run false _ _ run_sound). Defined.

Lemma never_added_twice_witness :
  freshAdds (trace (performAll run
    [AddDescriptor 7; AddEventHandler 7 EPOLLIN (Some removeSelf); WaitForEvents (-1);
     AddDescriptor 7; AddEventHandler 7 EPOLLIN (Some record)]
    (after (construct false
       {| interest := ∅; closed := [];
          pending := [[{| events := EPOLLIN; data_fd := 7 |}]] |})))).
Proof. exact (never_added_twice run false _ _ run_sound). Defined.

Lemma dispatch_invokes_matching_witness :
  ∃ w', dispatchCategories quiet 3 (Z.lor EPOLLIN EPOLLHUP) allEventTypes scenario3
          = Done Continue w' ∧
        registry w' = registry scenario3 ∧
        trace w' = trace scenario3 ++ [Invoke 3 EPOLLIN; Invoke 3 EPOLLHUP].
Proof.
  exact (dispatch_invokes_matching quiet 3 (Z.lor EPOLLIN EPOLLHUP)
    {| isInitialized := true; monitoredFd := 3;
       IN_handler := Some record; OUT_handler := None; RDHUP_handler := None;
       PRI_handler := None; ERR_handler := None; HUP_handler := Some record |}
    scenario3 quiet_inert eq_refl).
Defined.

Lemma wait_cycle_inert_witness :
  ∃ w', waitForEvents quiet (-1) scenario3 = Done tt w' ∧
        (∀ fd, registry w' !! fd =
               if bool_decide (fd ∈ hangupFds (reportedBatch (-1) scenario3))
               then None else registry scenario3 !! fd) ∧
        invokedIn (trace w') =
          invokedIn (trace scenario3) ++
          expectedInvocations (registry scenario3) (reportedBatch (-1) scenario3).
Proof.
  apply (wait_cycle_inert quiet (-1) scenario3 quiet_inert).
  - vm_compute. apply NoDup_singleton.
  - intros ev Hev. vm_compute in Hev. apply list_elem_of_singleton in Hev as ->.
    by eexists.
Defined.

Lemma waitForEvents_nothing_reported_witness :
  waitForEvents run (-1) bare7 = Done tt (enterWait (-1) bare7) ∧
  registry (enterWait (-1) bare7) = registry bare7 ∧
  trace (enterWait (-1) bare7) = trace bare7 ++ [SysEpollWait 3 10 (-1) 0].
Proof.
  refine (waitForEvents_nothing_reported run (-1) bare7 _). vm_compute. discriminate.
Defined.

(** The readable handler of the closed descriptor 5 is [onClientWrite]:
    [recv] fails, the handler throws, and so does the wait-cycle. With
    the callbacks of [pair34], which return, the wait-cycle returns. *)
Lemma waitForEvents_returns_witness :
  (returned (waitForEvents serverInvoke (-1) closedClient5) = false ∧
   ∃ c, c ∈ callsOf serverInvoke (reportedBatch (-1) closedClient5)
              (enterWait (-1) closedClient5) ∧
        returned (serverInvoke c.1.1 c.1.2 c.2) = false) ∧
  returned (waitForEvents run (-1) pair34) = true.
Proof.
  split.
  - split; [reflexivity|].
    destruct (waitForEvents serverInvoke (-1) closedClient5) as [[] w1|e w1] eqn:Hw;
      [vm_compute in Hw; discriminate Hw|].
    destruct (proj1 (waitForEvents_throws_only_from_callbacks serverInvoke (-1)
                       closedClient5) e w1 Hw) as (c & Hin & Hthrow).
    exists c. split; [exact Hin|]. by rewrite Hthrow.
  - refine (proj2 (waitForEvents_throws_only_from_callbacks run (-1) pair34) _).
    apply Forall_forall. intros [[cb arg] w0] _. apply run_returns.
Defined.

(** The kernel reports descriptor 9, which is not registered, before
    descriptor 7: the readable handler of 7 is not invoked. *)
Lemma unregistered_descriptor_witness :
  let w := script [addDescriptor 7; addEventHandler 7 EPOLLIN (Some record)]
             (boot false [] [[{| events := EPOLLIN; data_fd := 9 |};
                              {| events := EPOLLIN; data_fd := 7 |}]]) in
  waitForEvents run (-1) w = Done tt (enterWait (-1) w).
Proof.
  intros w.
  exact (unregistered_descriptor_ends_cycle run (-1) w []
           {| events := EPOLLIN; data_fd := 9 |} [{| events := EPOLLIN; data_fd := 7 |}]
           (enterWait (-1) w) eq_refl eq_refl eq_refl).
Defined.

Lemma tcpAccept_rejects_witness :
  ∃ what, tcpAccept 4 (serverBoot 4 [] [])
            = Threw (runtime_error what)
                (setKernel (accept 4 (kernel (serverBoot 4 [] []))).1 (serverBoot 4 [] [])).
Proof.
  refine (tcpAccept_rejects_nonpositive 4 (serverBoot 4 [] []) _). vm_compute. discriminate.
Defined.

Lemma tcpAccept_registers_witness :
  ∃ md, registry (after (tcpAccept 4 (serverBoot 4 [5] []))) !! 5 = Some md ∧
        isInitialized md = true ∧
        getHandler md EPOLLIN = inr (Some CbOnClientWrite) ∧
        getHandler md EPOLLRDHUP = inr (Some CbOnClientDisconnect) ∧
        getHandler md EPOLLHUP = inr (Some CbOnClientDisconnect) ∧
        (registry (serverBoot 4 [5] []) !! 5 = None →
         getHandler md EPOLLOUT = inr None ∧ getHandler md EPOLLPRI = inr None ∧
         getHandler md EPOLLERR = inr None).
Proof.
  exact (proj1 (proj2 (tcpAccept_registers_client 4 (serverBoot 4 [5] [])
                         (after (tcpAccept 4 (serverBoot 4 [5] []))) eq_refl))).
Defined.

Lemma startServer_registers_witness :
  ∃ md, registry (after (startServer "127.0.0.1" 3000 (serverBoot 4 [] []))) !! 4 = Some md ∧
        isInitialized md = true ∧
        getHandler md EPOLLIN = inr (Some CbAcceptLambda) ∧
        getHandler md EPOLLOUT = inr (Some CbAcceptLambda).
Proof.
  exact (proj2 (proj2 (startServer_registers_listener "127.0.0.1" 3000 (serverBoot 4 [] []) 4
                         (after (startServer "127.0.0.1" 3000 (serverBoot 4 [] []))) eq_refl))).
Defined.
